(** * sssftp: key loading, remote commands and the directory browser

    A shallow embedding of [tui.go] (the bubbletea model of the remote file
    browser) and of the SSH helper file ([ConnectSSH]'s [signerFromPem],
    [parsePemBlock], [RunCommand]).

    What the two files call and do not define is gathered in records of
    functions: the sftp and ssh clients, crypto/x509, encoding/pem,
    lipgloss, bubbles and the local file system, and [handleError], which
    package main defines in another file.  A statement that quantifies
    over such a record holds for every behaviour of those parts. *)

From stdpp Require Import base numbers strings pretty list gmap.

(** ** Go values *)

(** A non-nil Go [error], identified by its message; [option error] is a Go
    [error] value, [None] being [nil]. *)
Definition error : Type := string.

Abbreviation bytes := (list Byte.byte).

(** How a Go call ends: it returns, or [handleError] ends the process with
    the error it was given, or the runtime panics. *)
Inductive result (A : Type) : Type :=
| Ret (a : A)
| Exit (err : option error)
| Panic (why : string).
Arguments Ret {A} a.
Arguments Exit {A} err.
Arguments Panic {A} why.

Definition rbind {A B : Type} (c : result A) (k : A -> result B) : result B :=
  match c with
  | Ret a => k a
  | Exit e => Exit e
  | Panic w => Panic w
  end.

(** The local file system: the files of the working directory by path. *)
Abbreviation LocalFS := (gmap string (list Byte.byte)).

(** Code that also reads and writes local files.  The file system is kept
    on every outcome: what was written before the process ended stays. *)
Definition M (A : Type) : Type := LocalFS -> result A * LocalFS.

Definition ret {A : Type} (a : A) : M A := fun fs => (Ret a, fs).

Definition bind {A B : Type} (c : M A) (k : A -> M B) : M B :=
  fun fs =>
    match c fs with
    | (Ret a, fs') => k a fs'
    | (Exit e, fs') => (Exit e, fs')
    | (Panic w, fs') => (Panic w, fs')
    end.

Definition lift {A : Type} (r : result A) : M A := fun fs => (r, fs).

#[global] Instance result_ret : MRet result := fun A a => Ret a.
#[global] Instance result_bind : MBind result := fun A B k c => rbind c k.
#[global] Instance M_ret : MRet M := fun A a => ret a.
#[global] Instance M_bind : MBind M := fun A B k c => bind c k.

(** ** The remote side: fs.FileInfo, sftp.File, sftp.Client *)

Module FileInfo.
Record t : Type := {
  Name : string;
  IsDir : bool;
  Size : Z;
  Mode : Z;
  ModTime : Z
}.
End FileInfo.

(** An open remote file: its [N] bytes, and where reading it breaks off
    ([Some (k, e)]: after [k] bytes, with [e]). *)
Record RemoteFile : Type := {
  rf_content : bytes;
  rf_fault : option (nat * error)
}.

(** What a reader gets out of the file before end-of-file or the fault. *)
Definition delivered (f : RemoteFile) : bytes * option error :=
  match rf_fault f with
  | None => (rf_content f, None)
  | Some (k, e) => (take k (rf_content f), Some e)
  end.

(** [*sftp.Client], with Go's result pairs: a value (the zero value, [None]
    or whatever the library hands back, beside an error) and an error. *)
Module Client.
Record t : Type := {
  Join : string -> string -> string;
  RealPath : string -> string * option error;
  ReadDir : string -> list FileInfo.t * option error;
  Open : string -> option RemoteFile * option error
}.
End Client.

(** ** The user interface: tea.Msg, tea.Cmd, list.Model, progress.Model *)

Inductive Msg : Type :=
| KeyMsg (key : string)
| FrameMsg
| WindowSizeMsg (Width Height : Z)
| OtherMsg (tag : nat).

Inductive Cmd : Type :=
| Cmd_nil
| Quit
| StatusMessageTimeout
| SpinnerTick
| NextFrame
| LibraryCmd (tag : nat)
| Batch (cmds : list Cmd).

Record item : Type := {
  title : string;
  description : string;
  rawValue : option FileInfo.t
}.

(** [list.Model], as far as this program uses it, with no filter applied:
    the items, the index of the selected one, the status message, the
    spinner and the size. *)
Record list_Model : Type := {
  items : list item;
  cursor : nat;
  statusMessage : string;
  showSpinner : bool;
  width : Z;
  height : Z
}.

Definition SelectedItem (l : list_Model) : option item := items l !! cursor l.

Definition SetItems (l : list_Model) (i : list item) : list_Model * Cmd :=
  ({| items := i; cursor := cursor l; statusMessage := statusMessage l;
      showSpinner := showSpinner l; width := width l; height := height l |},
   Cmd_nil).

Definition NewStatusMessage (l : list_Model) (s : string) : list_Model * Cmd :=
  ({| items := items l; cursor := cursor l; statusMessage := s;
      showSpinner := showSpinner l; width := width l; height := height l |},
   StatusMessageTimeout).

Definition ToggleSpinner (l : list_Model) : list_Model * Cmd :=
  ({| items := items l; cursor := cursor l; statusMessage := statusMessage l;
      showSpinner := negb (showSpinner l); width := width l; height := height l |},
   if showSpinner l then Cmd_nil else SpinnerTick).

Definition SetSize (l : list_Model) (w h : Z) : list_Model :=
  {| items := items l; cursor := cursor l; statusMessage := statusMessage l;
     showSpinner := showSpinner l; width := w; height := h |}.

(** [progress.Model] is kept as the calls made on it, latest first: its
    percentages are floating-point numbers this program never reads. *)
Inductive progress_call : Type :=
| Call_IncrPercent_tenth
| Call_Update_FrameMsg.

Definition progress_Model : Type := list progress_call.

Definition IncrPercent_tenth (p : progress_Model) : progress_Model * Cmd :=
  (Call_IncrPercent_tenth :: p, NextFrame).

Definition progress_Update (p : progress_Model) : progress_Model * Cmd :=
  (Call_Update_FrameMsg :: p, NextFrame).

Module model.
Record t : Type := {
  list : list_Model;
  progressBar : progress_Model;
  sftpClient : Client.t;
  currentDir : string
}.
End model.
Abbreviation model := model.t.

Definition set_list (m : model) (l : list_Model) : model :=
  {| model.list := l; model.progressBar := model.progressBar m;
     model.sftpClient := model.sftpClient m; model.currentDir := model.currentDir m |}.

Definition set_progressBar (m : model) (p : progress_Model) : model :=
  {| model.list := model.list m; model.progressBar := p;
     model.sftpClient := model.sftpClient m; model.currentDir := model.currentDir m |}.

Definition set_currentDir (m : model) (d : string) : model :=
  {| model.list := model.list m; model.progressBar := model.progressBar m;
     model.sftpClient := model.sftpClient m; model.currentDir := d |}.

(** The navigation state of the specification: the current remote path and
    the entries on display. *)
Definition NavigationState : Type := string * list item.

Definition nav (m : model) : NavigationState :=
  (model.currentDir m, items (model.list m)).

(** ** What the program is linked against *)

Record World : Type := {
  (* [func handleError(err error)], defined elsewhere in package main:
     whether the call returns for a given argument; when it does not, the
     process ends there. *)
  handleError_returns : option error -> bool;
  (* the package-level [sftpClient] that [moveDir] hands to
     [createItemListModel] *)
  sftpClient : Client.t;
  (* lipgloss renderers of the [var] block, and [docStyle.GetFrameSize()] *)
  dirItemStyle : string -> string;
  fileItemStyle : string -> string;
  statusMessageStyle : string -> string;
  docStyle_GetFrameSize : Z * Z;
  (* decoration of an entry: icons, time and mode formatting, and the
     float64 half of [ConvertBytesToSizeString] (sizes of a thousand bytes
     and more: division, [%.1f] and truncation of floating-point numbers) *)
  icons_GetIcon : string -> string -> string -> string;
  icons_GetIndicator : Z -> string;
  filepath_Ext : string -> string;
  ModTime_Format : Z -> string;
  FileMode_String : Z -> string;
  sizeWithSuffix : Z -> string;
  (* bubbles' own handling of a message *)
  list_Update : list_Model -> Msg -> list_Model * Cmd;
  (* the local side: path/filepath and os.Create's refusals *)
  filepath_Join : string -> string -> string;
  os_Create_err : string -> option error
}.

(** ** The local side: os.Create and io.Copy *)

(** [os.Create(name)]: a refused call leaves a nil [*os.File] and the file
    system as it was; otherwise the file is created or truncated, and the
    handle (here: its path) is positioned at its start. *)
Definition os_Create (W : World) (name : string) : M (option string * option error) :=
  fun fs =>
    match os_Create_err W name with
    | Some e => (Ret (None, Some e), fs)
    | None => (Ret (Some name, None), <[name := []]> fs)
    end.

(** [io.Copy(dst, src)]: a nil [*sftp.File] is dereferenced on its first
    use; what the source delivers is appended to the destination; writing
    to a nil [*os.File] is refused by package os. *)
Definition io_Copy (dst : option string) (src : option RemoteFile) : M (Z * option error) :=
  fun fs =>
    match src with
    | None => (Panic "invalid memory address or nil pointer dereference", fs)
    | Some f =>
        let '(data, rerr) := delivered f in
        match dst with
        | Some name =>
            (Ret (Z.of_nat (length data), rerr),
             <[name := default [] (fs !! name) ++ data]> fs)
        | None =>
            match data with
            | [] => (Ret (0%Z, rerr), fs)
            | _ :: _ => (Ret (0%Z, Some "invalid argument"), fs)
            end
        end
    end.

(** ** tui.go *)

(** A call [handleError(err)]. *)
Definition handleError (W : World) (err : option error) : result unit :=
  if handleError_returns W err then Ret tt else Exit err.

(** ConvertBytesToSizeString converts a byte count to a human readable
    string. *)
Definition ConvertBytesToSizeString (W : World) (size : Z) : string :=
  let thousand := 1000%Z in
  if (size <? thousand)%Z then pretty size +:+ "B"
  else sizeWithSuffix W size.

Definition getDecorations (W : World) (value : FileInfo.t) : string * string :=
  let icon :=
    icons_GetIcon W (FileInfo.Name value) (filepath_Ext W (FileInfo.Name value))
      (icons_GetIndicator W (FileInfo.Mode value)) in
  let status :=
    ModTime_Format W (FileInfo.ModTime value) +:+ " " +:+
    FileMode_String W (FileInfo.Mode value) +:+ " " +:+
    ConvertBytesToSizeString W (FileInfo.Size value) in
  (icon, status).

(** The entry a directory listing starts with: [".."], with no file record. *)
Definition parentItem (W : World) : item :=
  {| title := dirItemStyle W ".."; description := ""; rawValue := None |}.

(** The body of the [for _, value := range fileList] loop. *)
Definition decorate (W : World) (value : FileInfo.t) : item :=
  let '(icon, status) := getDecorations W value in
  let decoratedItem :=
    if FileInfo.IsDir value
    then icon +:+ " " +:+ dirItemStyle W (FileInfo.Name value)
    else icon +:+ " " +:+ fileItemStyle W (FileInfo.Name value) in
  {| title := decoratedItem; description := status; rawValue := Some value |}.

Definition createItemListModel (W : World) (dirPath : string) (sftpClient : Client.t)
  : result (list item) :=
  let '(fileList, err) := Client.ReadDir sftpClient dirPath in
  _ ← handleError W err;
  let items := [parentItem W] in
  let items := fold_left (fun items value => items ++ [decorate W value]) fileList items in
  mret items.

Definition moveDir (W : World) (m : model) (selectedItemName : string) (cmds : list Cmd)
  : result (model * list Cmd) :=
  let '(currentWd, err) :=
    Client.RealPath (model.sftpClient m)
      (Client.Join (model.sftpClient m) (model.currentDir m) selectedItemName) in
  _ ← handleError W err;
  let m := set_currentDir m currentWd in
  newItems ← createItemListModel W currentWd (sftpClient W);
  let '(l, cmd) := SetItems (model.list m) newItems in
  let m := set_list m l in
  let cmds := cmds ++ [cmd] in
  let '(l, cmd) :=
    NewStatusMessage (model.list m) (statusMessageStyle W ("Entered " +:+ selectedItemName)) in
  let m := set_list m l in
  let cmds := cmds ++ [cmd] in
  mret (m, cmds).

Definition downloadFile (W : World) (m : model) (filePath fileName : string)
  : M (option error) :=
  let '(srcFile, err) :=
    Client.Open (model.sftpClient m) (Client.Join (model.sftpClient m) filePath fileName) in
  _ ← lift (handleError W err);
  '(destFile, err) ← os_Create W (filepath_Join W "." fileName);
  _ ← lift (handleError W err);
  '(_, err) ← io_Copy destFile srcFile;
  mret err.

(** What follows the [switch] in [Update]: the message goes to the list. *)
Definition Update_list (W : World) (m : model) (msg : Msg) : M (model * Cmd) :=
  let '(l, cmd) := list_Update W (model.list m) msg in
  mret (set_list m l, cmd).

Definition Update (W : World) (m : model) (msg : Msg) : M (model * Cmd) :=
  let cmds : list Cmd := [] in
  match msg with
  | KeyMsg key =>
      if String.eqb key "ctrl+c" then mret (m, Quit)
      else if String.eqb key "backspace" then
        '(m, cmds) ← lift (moveDir W m ".." cmds);
        mret (m, Batch cmds)
      else if String.eqb key "enter" then
        match SelectedItem (model.list m) with
        | None => lift (Panic "interface conversion: interface is nil, not *main.item")
        | Some selected =>
            '(m, cmds) ←
              match rawValue selected with
              | None => lift (moveDir W m ".." cmds)
              | Some selectedItem =>
                  let selectedItemName := FileInfo.Name selectedItem in
                  if FileInfo.IsDir selectedItem then lift (moveDir W m selectedItemName cmds)
                  else
                    let '(l, cmd) :=
                      NewStatusMessage (model.list m)
                        (statusMessageStyle W ("Downloading " +:+ selectedItemName)) in
                    let m := set_list m l in
                    let cmds := cmds ++ [cmd] in
                    let '(l, cmd) := ToggleSpinner (model.list m) in
                    let m := set_list m l in
                    let cmds := cmds ++ [cmd] in
                    err ← downloadFile W m (model.currentDir m) selectedItemName;
                    _ ← lift (handleError W err);
                    mret (m, cmds)
              end;
            let '(p, cmd) := IncrPercent_tenth (model.progressBar m) in
            let m := set_progressBar m p in
            let cmds := cmds ++ [cmd] in
            mret (m, Batch cmds)
        end
      else Update_list W m msg
  | FrameMsg =>
      let '(progressModel, progressCommand) := progress_Update (model.progressBar m) in
      let m := set_progressBar m progressModel in
      let '(l, spinnerCommmand) := ToggleSpinner (model.list m) in
      let m := set_list m l in
      mret (m, Batch [progressCommand; spinnerCommmand])
  | WindowSizeMsg Width Height =>
      let '(h, v) := docStyle_GetFrameSize W in
      let m := set_list m (SetSize (model.list m) (Width - h) (Height - v)) in
      Update_list W m msg
  | OtherMsg _ => Update_list W m msg
  end.

(** The event loop: messages are handled one at a time, each on the model
    the previous one returned. *)
Fixpoint run (W : World) (msgs : list Msg) (m : model) : M model :=
  match msgs with
  | [] => mret m
  | msg :: rest => '(m', _) ← Update W m msg; run W rest m'
  end.

(** The navigation state an outcome carries, if any. *)
Definition nav_of {A : Type} (r : result (model * A)) : result NavigationState :=
  match r with
  | Ret (m, _) => Ret (nav m)
  | Exit e => Exit e
  | Panic w => Panic w
  end.

(** ** The SSH helpers: encoding/pem, crypto/x509, x/crypto/ssh *)

(** [pem.Block]. *)
Record Block : Type := {
  Block_Type : string;
  Block_Headers : gmap string string;
  Block_Bytes : bytes
}.

Definition set_Bytes (b : Block) (der : bytes) : Block :=
  {| Block_Type := Block_Type b; Block_Headers := Block_Headers b; Block_Bytes := der |}.

(** The key [parsePemBlock] returns as an [interface{}]: which parser made
    it, and the pointer that parser returned. *)
Inductive Key : Type :=
| RSAPrivateKey (k : option bytes)
| ECPrivateKey (k : option bytes)
| DSAPrivateKey (k : option bytes).

(** An [ssh.Signer], by the key material it signs with. *)
Record Signer : Type := { signer_key : bytes }.

Inductive stream : Type := Stdout | Stderr.

(** [ssh.Session]: whether a pseudo-terminal was requested on it. *)
Record Session : Type := { pty : bool }.

(** [*ssh.Client], seen from [RunCommand]: whether a session can be opened,
    and what a command writes, chunk by chunk in the order written, and how
    it ends, on a session with or without a pseudo-terminal. *)
Record SSHClient : Type := {
  NewSession_err : option error;
  remote_run : string -> bool -> list (stream * string) * option error
}.

Definition NewSession (c : SSHClient) : option Session * option error :=
  match NewSession_err c with
  | Some e => (None, Some e)
  | None => (Some {| pty := false |}, None)
  end.

Fixpoint written_to (s : stream) (chunks : list (stream * string)) : string :=
  match chunks with
  | [] => ""
  | (Stdout, text) :: rest =>
      match s with
      | Stdout => text +:+ written_to s rest
      | Stderr => written_to s rest
      end
  | (Stderr, text) :: rest =>
      match s with
      | Stdout => written_to s rest
      | Stderr => text +:+ written_to s rest
      end
  end.

(** What [CombinedOutput] would collect: both streams, as written. *)
Fixpoint combined (chunks : list (stream * string)) : string :=
  match chunks with
  | [] => ""
  | (_, text) :: rest => text +:+ combined rest
  end.

(** [session.Output(cmd)]: runs the command with standard output set to a
    buffer, and returns the buffer and [Run]'s error. *)
Definition Session_Output (c : SSHClient) (s : Session) (cmd : string)
  : string * option error :=
  let '(chunks, err) := remote_run c cmd (pty s) in
  (written_to Stdout chunks, err).

Record Crypto : Type := {
  pem_Decode : bytes -> option Block;
  x509_IsEncryptedPEMBlock : Block -> bool;
  x509_DecryptPEMBlock : Block -> bytes -> bytes * option error;
  x509_ParsePKCS1PrivateKey : bytes -> option bytes * option error;
  x509_ParseECPrivateKey : bytes -> option bytes * option error;
  ssh_ParseDSAPrivateKey : bytes -> option bytes * option error;
  ssh_NewSignerFromKey : option Key -> option Signer * option error;
  ssh_ParsePrivateKey : bytes -> option Signer * option error;
  (* fmt's [%q] *)
  strconv_Quote : string -> string
}.

Definition parsePemBlock (C : Crypto) (block : Block) : option Key * option error :=
  if String.eqb (Block_Type block) "RSA PRIVATE KEY" then
    let '(key, err) := x509_ParsePKCS1PrivateKey C (Block_Bytes block) in
    match err with
    | Some e => (None, Some ("parsing PKCS private key failed " +:+ e))
    | None => (Some (RSAPrivateKey key), None)
    end
  else if String.eqb (Block_Type block) "EC PRIVATE KEY" then
    let '(key, err) := x509_ParseECPrivateKey C (Block_Bytes block) in
    match err with
    | Some e => (None, Some ("parsing EC private key failed " +:+ e))
    | None => (Some (ECPrivateKey key), None)
    end
  else if String.eqb (Block_Type block) "DSA PRIVATE KEY" then
    let '(key, err) := ssh_ParseDSAPrivateKey C (Block_Bytes block) in
    match err with
    | Some e => (None, Some ("parsing DSA private key failed " +:+ e))
    | None => (Some (DSAPrivateKey key), None)
    end
  else
    (None, Some ("parsing private key failed, unsupported key type "
                 +:+ strconv_Quote C (Block_Type block))).

Definition signerFromPem (C : Crypto) (pemBytes password : bytes)
  : option Signer * option error :=
  let err : error := "pem decode failed, no key found" in
  match pem_Decode C pemBytes with
  | None => (None, Some err)
  | Some pemBlock =>
      if x509_IsEncryptedPEMBlock C pemBlock then
        let '(der, err) := x509_DecryptPEMBlock C pemBlock password in
        let pemBlock := set_Bytes pemBlock der in
        match err with
        | Some e => (None, Some ("decrypting PEM block failed " +:+ e))
        | None =>
            match parsePemBlock C pemBlock with
            | (_, Some e) => (None, Some e)
            | (key, None) =>
                match ssh_NewSignerFromKey C key with
                | (_, Some e) =>
                    (None, Some ("creating signer from encrypted key failed " +:+ e))
                | (signer, None) => (signer, None)
                end
            end
        end
      else
        match ssh_ParsePrivateKey C pemBytes with
        | (_, Some e) => (None, Some ("parsing plain private key failed " +:+ e))
        | (signer, None) => (signer, None)
        end
  end.

Definition RunCommand (W : World) (cmd : string) (sshClient : SSHClient)
  : result (string * option error) :=
  let '(session, err) := NewSession sshClient in
  _ ← handleError W err;
  _ ← handleError W err;
  match session with
  | None => Panic "invalid memory address or nil pointer dereference"
  | Some session =>
      let '(output, err) := Session_Output sshClient session cmd in
      mret (output, err)
  end.

(** ** Derived notions used in the statements *)

(** The canonical join of a directory and a name, as [moveDir] computes it:
    the server's [RealPath] of the client-side [Join]. *)
Definition canonicalJoin (c : Client.t) (dir name : string) : string :=
  (Client.RealPath c (Client.Join c dir name)).1.

(** The item list of a directory whose listing is [fileList]. *)
Definition listingItems (W : World) (fileList : list FileInfo.t) : list item :=
  parentItem W :: map (decorate W) fileList.

(** The model [moveDir] leaves when every call in it returns. *)
Definition entered (W : World) (m : model) (currentWd : string) (newItems : list item)
  (selectedItemName : string) : model :=
  {| model.list :=
       {| items := newItems;
          cursor := cursor (model.list m);
          statusMessage := statusMessageStyle W ("Entered " +:+ selectedItemName);
          showSpinner := showSpinner (model.list m);
          width := width (model.list m);
          height := height (model.list m) |};
     model.progressBar := model.progressBar m;
     model.sftpClient := model.sftpClient m;
     model.currentDir := currentWd |}.

(** An event leaves the navigation state as it was: the handler returns a
    model, and that model's path and items are the ones it was given. *)
Definition keeps_nav (W : World) (m : model) (msg : Msg) (fs : LocalFS) : Prop :=
  exists m' cmd fs', Update W m msg fs = (Ret (m', cmd), fs') /\ nav m' = nav m.

(** The model "enter" on a file leaves when the download returns. *)
Definition downloading (W : World) (m : model) (name : string) : model :=
  {| model.list :=
       {| items := items (model.list m);
          cursor := cursor (model.list m);
          statusMessage := statusMessageStyle W ("Downloading " +:+ name);
          showSpinner := negb (showSpinner (model.list m));
          width := width (model.list m);
          height := height (model.list m) |};
     model.progressBar := Call_IncrPercent_tenth :: model.progressBar m;
     model.sftpClient := model.sftpClient m;
     model.currentDir := model.currentDir m |}.

(** What two outcomes of [Update] have in common when they are the same
    navigation: the local files, and either the same list, path and client
    (the progress bar and the commands apart) or the same way of ending. *)
Definition same_transition (r1 r2 : result (model * Cmd) * LocalFS) : Prop :=
  r1.2 = r2.2 /\
  match r1.1, r2.1 with
  | Ret (m1, _), Ret (m2, _) =>
      model.list m1 = model.list m2 /\ model.currentDir m1 = model.currentDir m2 /\
      model.sftpClient m1 = model.sftpClient m2
  | Exit e1, Exit e2 => e1 = e2
  | Panic w1, Panic w2 => w1 = w2
  | _, _ => False
  end.

(** ** A small remote host, for the examples *)

(** [handleError] in the style of [log.Fatal]: it returns on [nil] only. *)
Definition strict (err : option error) : bool :=
  match err with
  | None => true
  | Some _ => false
  end.

(** A [handleError] that logs and returns. *)
Definition lenient (err : option error) : bool := true.

Definition newline : string := String (Ascii.ascii_of_nat 10) EmptyString.

Definition docs : FileInfo.t :=
  {| FileInfo.Name := "docs"; FileInfo.IsDir := true; FileInfo.Size := 4096;
     FileInfo.Mode := 493; FileInfo.ModTime := 0 |}.

Definition notes : FileInfo.t :=
  {| FileInfo.Name := "notes.txt"; FileInfo.IsDir := false; FileInfo.Size := 3;
     FileInfo.Mode := 420; FileInfo.ModTime := 0 |}.

Definition home : FileInfo.t :=
  {| FileInfo.Name := "home"; FileInfo.IsDir := true; FileInfo.Size := 4096;
     FileInfo.Mode := 493; FileInfo.ModTime := 0 |}.

Definition notes_content : bytes := [Byte.x68; Byte.x69; Byte.x0a].

(** A host with [/home/user/docs] and [/home/user/notes.txt]; [docsListing]
    is what listing [docs] answers, [notesFile] what opening the file
    answers. *)
Definition hostClient (docsListing : list FileInfo.t * option error)
  (notesFile : option RemoteFile * option error) : Client.t :=
  {| Client.Join := fun dir name =>
       if String.eqb name ".." then
         (if String.eqb dir "/home/user/docs" then "/home/user"
          else if String.eqb dir "/home/user" then "/home"
          else "/")
       else if String.eqb dir "/" then "/" +:+ name
       else dir +:+ "/" +:+ name;
     Client.RealPath := fun p => (p, None);
     Client.ReadDir := fun p =>
       if String.eqb p "/" then ([home], None)
       else if String.eqb p "/home/user" then ([docs; notes], None)
       else if String.eqb p "/home/user/docs" then docsListing
       else ([], None);
     Client.Open := fun p =>
       if String.eqb p "/home/user/notes.txt" then notesFile
       else (None, Some "file does not exist") |}.

Definition goodClient : Client.t :=
  hostClient ([], None)
    (Some {| rf_content := notes_content; rf_fault := None |}, None).

(** Listing [docs] is refused. *)
Definition deniedClient : Client.t :=
  hostClient ([], Some "permission denied")
    (Some {| rf_content := notes_content; rf_fault := None |}, None).

(** Opening [notes.txt] is refused. *)
Definition unreadableClient : Client.t :=
  hostClient ([], None) (None, Some "permission denied").

(** Reading [notes.txt] breaks off after two bytes. *)
Definition flakyClient : Client.t :=
  hostClient ([], None)
    (Some {| rf_content := notes_content; rf_fault := Some (2, "connection lost") |}, None).

Definition plainWorld (h : option error -> bool) (c : Client.t) : World :=
  {| handleError_returns := h;
     sftpClient := c;
     dirItemStyle := fun s => s;
     fileItemStyle := fun s => s;
     statusMessageStyle := fun s => s;
     docStyle_GetFrameSize := (4, 2)%Z;
     icons_GetIcon := fun _ _ _ => "-";
     icons_GetIndicator := fun _ => "";
     filepath_Ext := fun _ => "";
     ModTime_Format := fun _ => "1970-01-01 00:00:00";
     FileMode_String := fun _ => "-rw-r--r--";
     sizeWithSuffix := fun _ => "4.0K";
     list_Update := fun l _ => (l, Cmd_nil);
     filepath_Join := fun dir name => if String.eqb dir "." then name else dir +:+ "/" +:+ name;
     os_Create_err := fun _ => None |}.

(** The browser showing [dir] with [shown] on display and the selection on
    entry [sel]. *)
Definition browsing (c : Client.t) (dir : string) (shown : list item) (sel : nat) : model :=
  {| model.list :=
       {| items := shown; cursor := sel; statusMessage := ""; showSpinner := false;
          width := 80; height := 24 |};
     model.progressBar := [];
     model.sftpClient := c;
     model.currentDir := dir |}.

(** In [/home/user], showing [.., docs, notes.txt]. *)
Definition atUser (c : Client.t) (sel : nat) : model :=
  browsing c "/home/user" (listingItems (plainWorld strict c) [docs; notes]) sel.

(** At the root, showing [.., home]. *)
Definition atRoot (c : Client.t) : model :=
  browsing c "/" (listingItems (plainWorld strict c) [home]) 0.

(** At the root, still showing the listing made when the root was empty. *)
Definition atStaleRoot (c : Client.t) : model :=
  browsing c "/" (listingItems (plainWorld strict c) []) 0.

(** A host whose [make] writes a warning to standard error. *)
Definition buildHost : SSHClient :=
  {| NewSession_err := None;
     remote_run := fun cmd _ =>
       if String.eqb cmd "echo hi" then ([(Stdout, "hi" +:+ newline)], None)
       else if String.eqb cmd "make" then
         ([(Stderr, "warning: unused" +:+ newline); (Stdout, "done" +:+ newline)], None)
       else ([], Some "Process exited with status 127") |}.

(** A toy crypto library: a key file is encrypted when its first byte is
    [E]; the passphrase is one byte, [s]; the key material is the rest. *)
Definition toyCrypto : Crypto :=
  {| pem_Decode := fun pemBytes =>
       match pemBytes with
       | [] => None
       | Byte.x45 :: body =>
           Some {| Block_Type := "RSA PRIVATE KEY";
                   Block_Headers := {[ "DEK-Info" := "AES-128-CBC,00" ]};
                   Block_Bytes := body |}
       | _ :: body =>
           Some {| Block_Type := "RSA PRIVATE KEY"; Block_Headers := ∅;
                   Block_Bytes := body |}
       end;
     x509_IsEncryptedPEMBlock := fun b =>
       match Block_Headers b !! "DEK-Info" with
       | Some _ => true
       | None => false
       end;
     x509_DecryptPEMBlock := fun b password =>
       match password with
       | [Byte.x73] => (Block_Bytes b, None)
       | _ => ([], Some "x509: decryption password incorrect")
       end;
     x509_ParsePKCS1PrivateKey := fun der => (Some der, None);
     x509_ParseECPrivateKey := fun der => (Some der, None);
     ssh_ParseDSAPrivateKey := fun der => (Some der, None);
     ssh_NewSignerFromKey := fun key =>
       match key with
       | Some (RSAPrivateKey (Some k)) => (Some {| signer_key := k |}, None)
       | _ => (None, Some "ssh: unsupported key type")
       end;
     ssh_ParsePrivateKey := fun pemBytes =>
       match pemBytes with
       | Byte.x50 :: body => (Some {| signer_key := body |}, None)
       | _ => (None, Some "ssh: no key found")
       end;
     strconv_Quote := fun s => s |}.

(** The same library with every step of the encrypted path failing. *)
Definition toyCrypto_no_decrypt : Crypto :=
  {| pem_Decode := pem_Decode toyCrypto;
     x509_IsEncryptedPEMBlock := x509_IsEncryptedPEMBlock toyCrypto;
     x509_DecryptPEMBlock := fun _ _ => ([], Some "unavailable");
     x509_ParsePKCS1PrivateKey := fun _ => (None, Some "unavailable");
     x509_ParseECPrivateKey := fun _ => (None, Some "unavailable");
     ssh_ParseDSAPrivateKey := fun _ => (None, Some "unavailable");
     ssh_NewSignerFromKey := fun _ => (None, Some "unavailable");
     ssh_ParsePrivateKey := ssh_ParsePrivateKey toyCrypto;
     strconv_Quote := fun s => s |}.

Definition encryptedKeyFile : bytes := [Byte.x45; Byte.x01; Byte.x02].
Definition plainKeyFile : bytes := [Byte.x50; Byte.x01; Byte.x02].

(** ** The rest of tui.go: the list item's methods and [Init] *)

Definition Title (i : item) : string := title i.
Definition Description (i : item) : string := description i.
Definition FilterValue (i : item) : string := title i.

Definition Init (m : model) : Cmd := Cmd_nil.

(** The items on display are the listing of the current directory, as the
    package-level client reports it. *)
Definition shows_current_listing (W : World) (m : model) : Prop :=
  items (model.list m)
  = listingItems W (Client.ReadDir (sftpClient W) (model.currentDir m)).1.

(** The messages [Update] handles by [moveDir] or by a download. *)
Definition is_navigation (msg : Msg) : bool :=
  match msg with
  | KeyMsg key => String.eqb key "backspace" || String.eqb key "enter"
  | _ => false
  end.

(** ** The rest of the SSH helpers: [ConnectSSH] *)

(** An [ssh.AuthMethod]: public-key authentication with the given signers
    (a nil signer is [None]). *)
Inductive AuthMethod : Type :=
| PublicKeys (signers : list (option Signer)).

(** A [ssh.HostKeyCallback] made by package knownhosts, by the host keys it
    accepts. *)
Record HostKeyCallback : Type := { accepted : list (string * string) }.

Record ClientConfig : Type := {
  User : string;
  Auth : list AuthMethod;
  Config_HostKeyCallback : option HostKeyCallback
}.

(** What [ConnectSSH] reaches outside the process: the key file, the
    known-hosts file and the network. *)
Record Outside : Type := {
  ioutil_ReadFile : string -> bytes * option error;
  knownhosts_New : string -> option HostKeyCallback * option error;
  ssh_Dial : string -> string -> ClientConfig -> option SSHClient * option error
}.

(** The calls made outside, in the order made. *)
Inductive Call : Type :=
| Call_ReadFile (path : string)
| Call_knownhosts_New (path : string)
| Call_Dial (network addr : string) (config : ClientConfig).

(** Code that makes such calls: the calls made so far are kept on every
    outcome. *)
Definition T (A : Type) : Type := list Call -> result A * list Call.

#[global] Instance T_ret : MRet T := fun A a calls => (Ret a, calls).
#[global] Instance T_bind : MBind T := fun A B k c calls =>
  match c calls with
  | (Ret a, calls') => k a calls'
  | (Exit e, calls') => (Exit e, calls')
  | (Panic w, calls') => (Panic w, calls')
  end.

Definition calling {A : Type} (call : Call) (answer : A) : T A :=
  fun calls => (Ret answer, calls ++ [call]).

Definition ending {A : Type} (r : result A) : T A := fun calls => (r, calls).

(** [log.Fatal(err)]: prints [err] and ends the process. *)
Definition log_Fatal {A : Type} (err : error) : T A := ending (Exit (Some err)).

Definition ConnectSSH (W : World) (C : Crypto) (O : Outside)
  (username privateKeyPath privateKeyPassword host port knownHostPath : string)
  : T (option SSHClient) :=
  '(pemBytes, err) ← calling (Call_ReadFile privateKeyPath)
                       (ioutil_ReadFile O privateKeyPath);
  match err with
  | Some e => log_Fatal e
  | None =>
      let '(signer, err) :=
        signerFromPem C pemBytes (String.list_byte_of_string privateKeyPassword) in
      _ ← ending (handleError W err);
      '(hostKeyCallback, err) ← calling (Call_knownhosts_New knownHostPath)
                                  (knownhosts_New O knownHostPath);
      match err with
      | Some e => log_Fatal e
      | None =>
          let config :=
            {| User := username;
               Auth := [PublicKeys [signer]];
               Config_HostKeyCallback := hostKeyCallback |} in
          '(conn, err) ← calling (Call_Dial "tcp" (host +:+ ":" +:+ port) config)
                           (ssh_Dial O "tcp" (host +:+ ":" +:+ port) config);
          match err with
          | Some e => log_Fatal e
          | None => mret conn
          end
      end
  end.

(** The configuration [ConnectSSH] dials with. *)
Definition dialConfig (C : Crypto) (O : Outside)
  (username privateKeyPath privateKeyPassword knownHostPath : string) : ClientConfig :=
  {| User := username;
     Auth := [PublicKeys
                [(signerFromPem C (ioutil_ReadFile O privateKeyPath).1
                    (String.list_byte_of_string privateKeyPassword)).1]];
     Config_HostKeyCallback := (knownhosts_New O knownHostPath).1 |}.

(** The decoder [parsePemBlock] has for a block's tag accepts [der] as the
    key [key]. *)
Definition decodes (C : Crypto) (tag : string) (der : bytes) (key : Key) : Prop :=
  (tag = "RSA PRIVATE KEY" /\
   exists k, x509_ParsePKCS1PrivateKey C der = (k, None) /\ key = RSAPrivateKey k) \/
  (tag = "EC PRIVATE KEY" /\
   exists k, x509_ParseECPrivateKey C der = (k, None) /\ key = ECPrivateKey k) \/
  (tag = "DSA PRIVATE KEY" /\
   exists k, ssh_ParseDSAPrivateKey C der = (k, None) /\ key = DSAPrivateKey k).

(** ** An outside for the examples *)

Definition officeOutside : Outside :=
  {| ioutil_ReadFile := fun path =>
       if String.eqb path "id_rsa" then (plainKeyFile, None)
       else if String.eqb path "id_enc" then (encryptedKeyFile, None)
       else ([], Some "open: no such file or directory");
     knownhosts_New := fun path =>
       if String.eqb path "known_hosts"
       then (Some {| accepted := [("example.org", "ssh-ed25519 AAAA")] |}, None)
       else (None, Some "open: no such file or directory");
     ssh_Dial := fun network addr config =>
       if String.eqb addr "example.org:22" then (Some buildHost, None)
       else (None, Some "dial tcp: no such host") |}.

(** A key file whose block carries a tag of none of the three kinds. *)
Definition otherTagCrypto : Crypto :=
  {| pem_Decode := fun pemBytes =>
       Some {| Block_Type := "OPENSSH PRIVATE KEY";
               Block_Headers := {[ "DEK-Info" := "AES-128-CBC,00" ]};
               Block_Bytes := pemBytes |};
     x509_IsEncryptedPEMBlock := x509_IsEncryptedPEMBlock toyCrypto;
     x509_DecryptPEMBlock := x509_DecryptPEMBlock toyCrypto;
     x509_ParsePKCS1PrivateKey := x509_ParsePKCS1PrivateKey toyCrypto;
     x509_ParseECPrivateKey := x509_ParseECPrivateKey toyCrypto;
     ssh_ParseDSAPrivateKey := ssh_ParseDSAPrivateKey toyCrypto;
     ssh_NewSignerFromKey := ssh_NewSignerFromKey toyCrypto;
     ssh_ParsePrivateKey := ssh_ParsePrivateKey toyCrypto;
     strconv_Quote := fun s => s |}.

(** A host on which no session can be opened. *)
Definition closedHost : SSHClient :=
  {| NewSession_err := Some "ssh: rejected: administratively prohibited";
     remote_run := remote_run buildHost |}.

(** A host that answers as [buildHost] does, except on a pseudo-terminal. *)
Definition ttyHost : SSHClient :=
  {| NewSession_err := None;
     remote_run := fun cmd pty =>
       if pty then ([(Stdout, "$ ")], None) else remote_run buildHost cmd false |}.

(** ** Notions and examples for the key loader and the parent entry *)

(** [signerFromPem] fails with [e] at a step: the step was reached (the
    steps before it went through), the library call of that step failed,
    and [e] is that step's message with the library's error. *)
Definition fails_at (C : Crypto) (pemBytes password : bytes) (e : error) : Prop :=
  match pem_Decode C pemBytes with
  | None => e = "pem decode failed, no key found"
  | Some pemBlock =>
      if x509_IsEncryptedPEMBlock C pemBlock then
        let decrypted := x509_DecryptPEMBlock C pemBlock password in
        (exists e', decrypted.2 = Some e' /\ e = "decrypting PEM block failed " +:+ e') \/
        (decrypted.2 = None /\
         ((Block_Type pemBlock = "RSA PRIVATE KEY" /\
           exists e', (x509_ParsePKCS1PrivateKey C decrypted.1).2 = Some e' /\
                      e = "parsing PKCS private key failed " +:+ e') \/
          (Block_Type pemBlock = "EC PRIVATE KEY" /\
           exists e', (x509_ParseECPrivateKey C decrypted.1).2 = Some e' /\
                      e = "parsing EC private key failed " +:+ e') \/
          (Block_Type pemBlock = "DSA PRIVATE KEY" /\
           exists e', (ssh_ParseDSAPrivateKey C decrypted.1).2 = Some e' /\
                      e = "parsing DSA private key failed " +:+ e') \/
          (Block_Type pemBlock <> "RSA PRIVATE KEY" /\
           Block_Type pemBlock <> "EC PRIVATE KEY" /\
           Block_Type pemBlock <> "DSA PRIVATE KEY" /\
           e = "parsing private key failed, unsupported key type "
               +:+ strconv_Quote C (Block_Type pemBlock)) \/
          (exists key e',
              decodes C (Block_Type pemBlock) decrypted.1 key /\
              (ssh_NewSignerFromKey C (Some key)).2 = Some e' /\
              e = "creating signer from encrypted key failed " +:+ e')))
      else
        exists e', (ssh_ParsePrivateKey C pemBytes).2 = Some e' /\
                   e = "parsing plain private key failed " +:+ e'
  end.

(** The toy library with the decryption of crypto/x509 as it is
    documented: not every incorrect passphrase is detected.  The key file
    is encrypted with the passphrase [s]; for the passphrase [w] the
    padding happens to check out, and decryption hands back noise without
    an error; every other passphrase is refused.  The RSA parser accepts
    the key material and nothing else. *)
Definition noisyCrypto : Crypto :=
  {| pem_Decode := pem_Decode toyCrypto;
     x509_IsEncryptedPEMBlock := x509_IsEncryptedPEMBlock toyCrypto;
     x509_DecryptPEMBlock := fun b password =>
       match password with
       | [Byte.x73] => (Block_Bytes b, None)
       | [Byte.x77] => ([Byte.xff; Byte.x00], None)
       | _ => ([], Some "x509: decryption password incorrect")
       end;
     x509_ParsePKCS1PrivateKey := fun der =>
       match der with
       | [Byte.x01; Byte.x02] => (Some der, None)
       | _ => (None, Some "asn1: structure error")
       end;
     x509_ParseECPrivateKey := x509_ParseECPrivateKey toyCrypto;
     ssh_ParseDSAPrivateKey := ssh_ParseDSAPrivateKey toyCrypto;
     ssh_NewSignerFromKey := ssh_NewSignerFromKey toyCrypto;
     ssh_ParsePrivateKey := ssh_ParsePrivateKey toyCrypto;
     strconv_Quote := fun s => s |}.

(** In [/home/user/docs], an empty directory, with the selection on the
    parent entry. *)
Definition atDocs (c : Client.t) : model :=
  browsing c "/home/user/docs" (listingItems (plainWorld strict c) []) 0.

(** A host on which [seq 2] writes two lines, and [grep -c x notes.txt]
    writes the count [0] and exits with status 1. *)
Definition shellHost : SSHClient :=
  {| NewSession_err := None;
     remote_run := fun cmd _ =>
       if String.eqb cmd "seq 2" then
         ([(Stdout, "1" +:+ newline); (Stdout, "2" +:+ newline)], None)
       else if String.eqb cmd "grep -c x notes.txt" then
         ([(Stdout, "0" +:+ newline)], Some "Process exited with status 1")
       else ([], Some "Process exited with status 127") |}.

(** * Properties *)

(** ** Listing a directory and moving into it *)

Section Navigation.
Context (W : World).

Lemma range_append (fileList : list FileInfo.t) (acc : list item) :
  fold_left (fun items value => items ++ [decorate W value]) fileList acc
  = acc ++ map (decorate W) fileList.
Proof.
  revert acc. induction fileList as [|value rest IH]; intros acc; simpl.
  - by rewrite app_nil_r.
  - rewrite IH, <- app_assoc. done.
Qed.

Lemma createItemListModel_unfold (dirPath : string) (c : Client.t) :
  createItemListModel W dirPath c =
    if handleError_returns W (Client.ReadDir c dirPath).2
    then Ret (listingItems W (Client.ReadDir c dirPath).1)
    else Exit (Client.ReadDir c dirPath).2.
Proof.
  unfold createItemListModel, handleError, listingItems.
  destruct (Client.ReadDir c dirPath) as [fileList err]; simpl.
  destruct (handleError_returns W err); simpl; [|done].
  by rewrite range_append.
Qed.

Lemma moveDir_unfold (m : model) (name : string) (cmds : list Cmd) :
  moveDir W m name cmds =
    let target :=
      Client.RealPath (model.sftpClient m)
        (Client.Join (model.sftpClient m) (model.currentDir m) name) in
    let listing := Client.ReadDir (sftpClient W) target.1 in
    if handleError_returns W target.2 then
      if handleError_returns W listing.2 then
        Ret (entered W m target.1 (listingItems W listing.1) name,
             (cmds ++ [Cmd_nil]) ++ [StatusMessageTimeout])
      else Exit listing.2
    else Exit target.2.
Proof.
  unfold moveDir. cbv zeta.
  destruct (Client.RealPath _ _) as [currentWd err]; simpl.
  unfold handleError at 1.
  destruct (handleError_returns W err); simpl; [|done].
  rewrite createItemListModel_unfold.
  destruct (handleError_returns W _); simpl; done.
Qed.

Lemma nav_entered (m : model) (currentWd : string) (newItems : list item) (name : string) :
  nav (entered W m currentWd newItems name) = (currentWd, newItems).
Proof. reflexivity. Qed.

(** The two keys that go to the parent directory, and "enter" on a
    directory, are [moveDir] followed by bookkeeping that leaves the path
    and the items alone. *)
Lemma Update_backspace (m : model) (fs : LocalFS) :
  Update W m (KeyMsg "backspace") fs =
    match moveDir W m ".." [] with
    | Ret (m', cmds) => (Ret (m', Batch cmds), fs)
    | Exit e => (Exit e, fs)
    | Panic w => (Panic w, fs)
    end.
Proof.
  unfold Update; simpl. unfold mbind, M_bind, bind, lift.
  destruct (moveDir W m ".." []) as [[m' cmds]| |]; done.
Qed.

Lemma Update_enter_moveDir (m : model) (fs : LocalFS) (selected : item) (name : string) :
  SelectedItem (model.list m) = Some selected ->
  match rawValue selected with
  | None => name = ".."
  | Some fi => FileInfo.IsDir fi = true /\ name = FileInfo.Name fi
  end ->
  Update W m (KeyMsg "enter") fs =
    match moveDir W m name [] with
    | Ret (m', cmds) =>
        (Ret (set_progressBar m' (Call_IncrPercent_tenth :: model.progressBar m'),
              Batch (cmds ++ [NextFrame])), fs)
    | Exit e => (Exit e, fs)
    | Panic w => (Panic w, fs)
    end.
Proof.
  intros Hsel Hraw. unfold Update; simpl. rewrite Hsel.
  unfold mbind, M_bind, bind, lift.
  destruct (rawValue selected) as [fi|].
  - destruct Hraw as [Hdir ->]. rewrite Hdir.
    destruct (moveDir W m (FileInfo.Name fi) []) as [[m' cmds]| |]; done.
  - subst name. destruct (moveDir W m ".." []) as [[m' cmds]| |]; done.
Qed.

End Navigation.

Section Transitions.
Context (W : World).

(** C1, as amended.  When the listing of the directory being entered fails
    with [e] (with [partial] the entries read before the failure), the
    error goes to [handleError] and nowhere else: if that call returns, the
    move completes with the new path and with the parent entry followed by
    [partial] on display; if it does not, the process ends with [e].  In
    neither case is the previous navigation state the result. *)
Theorem moveDir_failed_listing (m : model) (name : string) (cmds : list Cmd)
  (p : string) (partial : list FileInfo.t) (e : error) :
  Client.RealPath (model.sftpClient m)
    (Client.Join (model.sftpClient m) (model.currentDir m) name) = (p, None) ->
  Client.ReadDir (sftpClient W) p = (partial, Some e) ->
  handleError_returns W None = true ->
  nav_of (moveDir W m name cmds) =
    if handleError_returns W (Some e)
    then Ret (p, listingItems W partial)
    else Exit (Some e).
Proof.
  intros Hpath Hlist Hnil.
  rewrite moveDir_unfold. cbv zeta.
  rewrite Hpath; simpl. rewrite Hnil, Hlist; simpl.
  destruct (handleError_returns W (Some e)); reflexivity.
Qed.

(** C2.  "enter" on a directory entry: whenever the handler returns a
    model, its first item is the parent entry and its path is the canonical
    join of the previous path and the entry's name; and it does return one
    as soon as [handleError] returns for the results of resolving and of
    listing. *)
Theorem Update_enter_directory (m : model) (fs : LocalFS) (selected : item)
  (fi : FileInfo.t) :
  SelectedItem (model.list m) = Some selected ->
  rawValue selected = Some fi ->
  FileInfo.IsDir fi = true ->
  let target :=
    Client.RealPath (model.sftpClient m)
      (Client.Join (model.sftpClient m) (model.currentDir m) (FileInfo.Name fi)) in
  (forall m' cmd fs',
      Update W m (KeyMsg "enter") fs = (Ret (m', cmd), fs') ->
      items (model.list m') !! 0 = Some (parentItem W) /\
      model.currentDir m' =
        canonicalJoin (model.sftpClient m) (model.currentDir m) (FileInfo.Name fi)) /\
  (handleError_returns W target.2 = true ->
   handleError_returns W (Client.ReadDir (sftpClient W) target.1).2 = true ->
   exists m' cmd, Update W m (KeyMsg "enter") fs = (Ret (m', cmd), fs)).
Proof.
  intros Hsel Hraw Hdir target.
  assert (HU := Update_enter_moveDir W m fs selected (FileInfo.Name fi) Hsel).
  rewrite Hraw in HU. specialize (HU (conj Hdir eq_refl)).
  rewrite moveDir_unfold in HU. cbv zeta in HU. fold target in HU.
  split.
  - intros m' cmd fs' Hret. rewrite HU in Hret.
    destruct (handleError_returns W target.2); [|discriminate].
    destruct (handleError_returns W _); [|discriminate].
    injection Hret as <- _ _. split; reflexivity.
  - intros H1 H2. rewrite HU, H1, H2. eauto.
Qed.

(** One "backspace" at a path that is its own canonical parent. *)
Lemma EnterParent_step (m : model) (fs : LocalFS) (l : list FileInfo.t) :
  Client.RealPath (model.sftpClient m)
    (Client.Join (model.sftpClient m) (model.currentDir m) "..")
    = (model.currentDir m, None) ->
  Client.ReadDir (sftpClient W) (model.currentDir m) = (l, None) ->
  handleError_returns W None = true ->
  Update W m (KeyMsg "backspace") fs =
    (Ret (entered W m (model.currentDir m) (listingItems W l) "..",
          Batch [Cmd_nil; StatusMessageTimeout]), fs).
Proof.
  intros Hroot Hlist Hnil.
  rewrite Update_backspace, moveDir_unfold. cbv zeta.
  rewrite Hroot; simpl. rewrite Hnil, Hlist; simpl. by rewrite Hnil.
Qed.

Lemma run_cons (msg : Msg) (rest : list Msg) (m : model) (fs : LocalFS) :
  run W (msg :: rest) m fs =
    match Update W m msg fs with
    | (Ret (m', _), fs') => run W rest m' fs'
    | (Exit e, fs') => (Exit e, fs')
    | (Panic w, fs') => (Panic w, fs')
    end.
Proof.
  cbn [run]. unfold mbind, M_bind, bind.
  destruct (Update W m msg fs) as [[[m' cmd]| |] fs']; reflexivity.
Qed.

Lemma EnterParent_repeat (n : nat) (m : model) (fs : LocalFS) (l : list FileInfo.t) :
  Client.RealPath (model.sftpClient m)
    (Client.Join (model.sftpClient m) (model.currentDir m) "..")
    = (model.currentDir m, None) ->
  Client.ReadDir (sftpClient W) (model.currentDir m) = (l, None) ->
  handleError_returns W None = true ->
  exists m',
    run W (replicate (S n) (KeyMsg "backspace")) m fs = (Ret m', fs) /\
    model.sftpClient m' = model.sftpClient m /\
    nav m' = (model.currentDir m, listingItems W l).
Proof.
  revert m. induction n as [|n IH]; intros m Hroot Hlist Hnil;
    rewrite replicate_S, run_cons, (EnterParent_step m fs l Hroot Hlist Hnil).
  - exists (entered W m (model.currentDir m) (listingItems W l) ".."). done.
  - destruct (IH (entered W m (model.currentDir m) (listingItems W l) ".."))
      as (m' & Hrun & Hc & Hnav); [exact Hroot | exact Hlist | exact Hnil |].
    exists m'. done.
Qed.

(** C3, as amended.  At a path that is its own canonical parent (the
    remote root), going to the parent once or any number of times keeps
    the path there and puts the root's current listing on display, parent
    entry first; so the navigation state is unchanged exactly when that
    listing was already the one on display, and from the first
    application on nothing changes any more. *)
Theorem EnterParent_at_root (n : nat) (m : model) (fs : LocalFS) (l : list FileInfo.t) :
  Client.RealPath (model.sftpClient m)
    (Client.Join (model.sftpClient m) (model.currentDir m) "..")
    = (model.currentDir m, None) ->
  Client.ReadDir (sftpClient W) (model.currentDir m) = (l, None) ->
  handleError_returns W None = true ->
  exists m1 mn,
    run W [KeyMsg "backspace"] m fs = (Ret m1, fs) /\
    run W (replicate (S n) (KeyMsg "backspace")) m fs = (Ret mn, fs) /\
    nav mn = nav m1 /\
    nav m1 = (model.currentDir m, listingItems W l) /\
    (nav m1 = nav m <-> items (model.list m) = listingItems W l).
Proof.
  intros Hroot Hlist Hnil.
  destruct (EnterParent_repeat 0 m fs l Hroot Hlist Hnil) as (m1 & H1 & _ & Hnav1).
  destruct (EnterParent_repeat n m fs l Hroot Hlist Hnil) as (mn & Hn & _ & Hnavn).
  exists m1, mn. repeat split; try done.
  - congruence.
  - rewrite Hnav1. unfold nav. intros [=]. done.
  - rewrite Hnav1. unfold nav. intros ->. done.
Qed.

End Transitions.

(** ** Downloads *)

Section Downloads.
Context (W : World).

Lemma downloadFile_receiver (m1 m2 : model) (filePath fileName : string) (fs : LocalFS) :
  model.sftpClient m1 = model.sftpClient m2 ->
  downloadFile W m1 filePath fileName fs = downloadFile W m2 filePath fileName fs.
Proof. intros Hc. unfold downloadFile. by rewrite Hc. Qed.

Lemma Update_enter_file (m : model) (fs : LocalFS) (selected : item) (fi : FileInfo.t) :
  SelectedItem (model.list m) = Some selected ->
  rawValue selected = Some fi ->
  FileInfo.IsDir fi = false ->
  Update W m (KeyMsg "enter") fs =
    match downloadFile W m (model.currentDir m) (FileInfo.Name fi) fs with
    | (Ret err, fs1) =>
        if handleError_returns W err
        then (Ret (downloading W m (FileInfo.Name fi),
                   Batch [StatusMessageTimeout;
                          if showSpinner (model.list m) then Cmd_nil else SpinnerTick;
                          NextFrame]), fs1)
        else (Exit err, fs1)
    | (Exit e, fs1) => (Exit e, fs1)
    | (Panic w, fs1) => (Panic w, fs1)
    end.
Proof.
  intros Hsel Hraw Hfile. unfold Update; simpl. rewrite Hsel, Hraw, Hfile.
  unfold mbind, M_bind, bind, lift, handleError; simpl.
  match goal with
  | |- context [downloadFile W ?m1 _ _ fs] =>
      rewrite (downloadFile_receiver m1 m) by reflexivity
  end.
  destruct (downloadFile W m _ _ fs) as [[err| |] fs1]; [|done|done].
  destruct (handleError_returns W err); reflexivity.
Qed.

(** C4.  "enter" on a regular file: whenever the handler returns a model,
    its path and items are those it was given, its status message
    announces the download, and the local files are what
    [downloadFile (currentDir, name)] left; and it does return one as soon
    as the download returns and [handleError] returns for its result. *)
Theorem Update_enter_regular_file (m : model) (fs : LocalFS) (selected : item)
  (fi : FileInfo.t) :
  SelectedItem (model.list m) = Some selected ->
  rawValue selected = Some fi ->
  FileInfo.IsDir fi = false ->
  (forall m' cmd fs',
      Update W m (KeyMsg "enter") fs = (Ret (m', cmd), fs') ->
      nav m' = nav m /\
      statusMessage (model.list m') =
        statusMessageStyle W ("Downloading " +:+ FileInfo.Name fi) /\
      exists err,
        downloadFile W m (model.currentDir m) (FileInfo.Name fi) fs = (Ret err, fs')) /\
  (forall err fs',
      downloadFile W m (model.currentDir m) (FileInfo.Name fi) fs = (Ret err, fs') ->
      handleError_returns W err = true ->
      keeps_nav W m (KeyMsg "enter") fs).
Proof.
  intros Hsel Hraw Hfile.
  assert (HU := Update_enter_file m fs selected fi Hsel Hraw Hfile).
  split.
  - intros m' cmd fs' Hret. rewrite HU in Hret.
    destruct (downloadFile W m _ _ fs) as [[err| |] fs1]; [|discriminate|discriminate].
    destruct (handleError_returns W err); [|discriminate].
    injection Hret as <- _ <-. eauto.
  - intros err fs' Hdl Hh. unfold keeps_nav. rewrite HU, Hdl, Hh. eauto.
Qed.

(** C9.  A download whose three steps succeed: with the remote file open
    and the local one created, a [nil] result of [downloadFile] means that
    the local file of that name in the working directory holds exactly the
    bytes of the remote one, whatever was there before, and no other local
    file changed; and a remote file read to its end gives that result. *)
Theorem downloadFile_copies_file (m : model) (filePath fileName : string) (fs : LocalFS)
  (f : RemoteFile) :
  Client.Open (model.sftpClient m) (Client.Join (model.sftpClient m) filePath fileName)
    = (Some f, None) ->
  os_Create_err W (filepath_Join W "." fileName) = None ->
  (forall fs',
      downloadFile W m filePath fileName fs = (Ret None, fs') ->
      fs' = <[filepath_Join W "." fileName := rf_content f]> fs /\
      exists data,
        fs' !! filepath_Join W "." fileName = Some data /\
        data = rf_content f /\ length data = length (rf_content f)) /\
  (rf_fault f = None ->
   handleError_returns W None = true ->
   downloadFile W m filePath fileName fs =
     (Ret None, <[filepath_Join W "." fileName := rf_content f]> fs)).
Proof.
  intros Hopen Hcreate.
  assert (Hrun : handleError_returns W None = true ->
    downloadFile W m filePath fileName fs =
      (Ret (delivered f).2, <[filepath_Join W "." fileName := (delivered f).1]> fs)).
  { intros Hnil. unfold downloadFile. rewrite Hopen.
    unfold mbind, M_bind, bind, lift, handleError, os_Create, io_Copy; simpl.
    rewrite Hnil, Hcreate, Hnil.
    destruct (delivered f) as [data rerr]; simpl.
    rewrite lookup_insert_eq, insert_insert_eq. done. }
  split.
  - intros fs' Hret.
    destruct (handleError_returns W None) eqn:Hnil.
    + rewrite (Hrun eq_refl) in Hret. unfold delivered in Hret.
      destruct (rf_fault f) as [[k e]|]; simpl in Hret; [discriminate|].
      injection Hret as <-. split; [done|].
      exists (rf_content f). by rewrite lookup_insert_eq.
    + unfold downloadFile in Hret. rewrite Hopen in Hret.
      unfold mbind, M_bind, bind, lift, handleError in Hret; simpl in Hret.
      rewrite Hnil in Hret. discriminate.
  - intros Hfault Hnil. rewrite (Hrun Hnil). unfold delivered. by rewrite Hfault.
Qed.

End Downloads.

Section DownloadErrors.
Context (W : World).

(** C7, as amended.  Of the three ways a download can fail, only a failed
    copy reaches the caller as [downloadFile]'s result: whatever
    [downloadFile] returns is what [io.Copy] returned, a copy that breaks
    off is returned with its error, and a failure to open the remote file
    or to create the local one goes to [handleError], which ends the
    process with it when it does not return; after a failed open
    [downloadFile] returns nothing at all. *)
Theorem downloadFile_returns_copy_error (m : model) (filePath fileName : string)
  (fs : LocalFS) :
  let opened :=
    Client.Open (model.sftpClient m) (Client.Join (model.sftpClient m) filePath fileName) in
  let dest := filepath_Join W "." fileName in
  (forall err fs',
      downloadFile W m filePath fileName fs = (Ret err, fs') ->
      exists dst fs1 n, io_Copy dst opened.1 fs1 = (Ret (n, err), fs')) /\
  (forall f,
      opened = (Some f, None) ->
      os_Create_err W dest = None ->
      handleError_returns W None = true ->
      downloadFile W m filePath fileName fs =
        (Ret (delivered f).2, <[dest := (delivered f).1]> fs)) /\
  (forall e,
      opened = (None, Some e) ->
      (forall err fs', downloadFile W m filePath fileName fs <> (Ret err, fs')) /\
      (handleError_returns W (Some e) = false ->
       downloadFile W m filePath fileName fs = (Exit (Some e), fs))) /\
  (forall e,
      os_Create_err W dest = Some e ->
      handleError_returns W opened.2 = true ->
      handleError_returns W (Some e) = false ->
      downloadFile W m filePath fileName fs = (Exit (Some e), fs)).
Proof.
  intros opened dest.
  unfold downloadFile. fold opened. fold dest.
  destruct opened as [srcFile oerr] eqn:Hopened.
  unfold mbind, M_bind, bind, lift, handleError, os_Create; simpl.
  split; [|split; [|split]].
  - intros err fs'.
    destruct (handleError_returns W oerr); [|discriminate].
    destruct (os_Create_err W dest) as [cerr|].
    + destruct (handleError_returns W (Some cerr)); [|discriminate].
      destruct (io_Copy None srcFile fs) as [[[n err']| |] fs2] eqn:Hcopy;
        [|discriminate|discriminate].
      intros [= <- <-]. eauto.
    + destruct (handleError_returns W None); [|discriminate].
      destruct (io_Copy (Some dest) srcFile (<[dest:=[]]> fs)) as [[[n err']| |] fs2] eqn:Hcopy;
        [|discriminate|discriminate].
      intros [= <- <-]. eauto.
  - intros f [= -> ->] Hcreate Hnil. rewrite Hnil, Hcreate; simpl. rewrite Hnil.
    unfold io_Copy. destruct (delivered f) as [data rerr]; simpl.
    by rewrite lookup_insert_eq, insert_insert_eq.
  - intros e [= -> ->]. split.
    + intros err fs' Hret.
      destruct (handleError_returns W (Some e)); [|discriminate].
      destruct (os_Create_err W dest) as [cerr|].
      * destruct (handleError_returns W (Some cerr)); discriminate.
      * destruct (handleError_returns W None); discriminate.
    + intros Hh. by rewrite Hh.
  - intros e Hcreate Hopen Hh. simpl in Hopen. rewrite Hopen, Hcreate; simpl.
    by rewrite Hh.
Qed.

End DownloadErrors.

(** ** The parent entry *)

Section ParentEntry.
Context (W : World).

Lemma Update_enter_parent (m : model) (fs : LocalFS) (selected : item) :
  SelectedItem (model.list m) = Some selected ->
  rawValue selected = None ->
  same_transition (Update W m (KeyMsg "enter") fs) (Update W m (KeyMsg "backspace") fs).
Proof.
  intros Hsel Hraw.
  assert (HU := Update_enter_moveDir W m fs selected ".." Hsel).
  rewrite Hraw in HU. rewrite (HU eq_refl), Update_backspace.
  unfold same_transition.
  destruct (moveDir W m ".." []) as [[m' cmds]| |]; simpl; done.
Qed.

(** C10.  Every item list [createItemListModel] returns, for whatever
    directory, is non-empty and starts with the parent entry, whose title
    is the styled [".."] and which carries no file record; the function
    returns one whenever [handleError] returns for the listing's result.
    "enter" with the selection on the first entry of such a list is the
    move to the parent, and the one "backspace" makes: both are
    [moveDir] with [".."]; a model "enter" returns is in the canonical
    join of the previous path and [".."], shows the listing of that
    directory and the status "Entered .."; and "enter" returns one
    whenever [handleError] returns for the results of resolving and of
    listing. *)
Theorem parent_entry_first (dirPath : string) (c : Client.t) (m : model) (fs : LocalFS) :
  (forall l,
      createItemListModel W dirPath c = Ret l ->
      l <> [] /\ l !! 0 = Some (parentItem W) /\
      (items (model.list m) = l ->
       cursor (model.list m) = 0 ->
       same_transition (Update W m (KeyMsg "enter") fs)
                       (Update W m (KeyMsg "backspace") fs) /\
       nav_of (Update W m (KeyMsg "enter") fs).1 = nav_of (moveDir W m ".." []) /\
       nav_of (Update W m (KeyMsg "backspace") fs).1 = nav_of (moveDir W m ".." []) /\
       (forall m' cmd fs',
           Update W m (KeyMsg "enter") fs = (Ret (m', cmd), fs') ->
           model.currentDir m'
           = canonicalJoin (model.sftpClient m) (model.currentDir m) ".." /\
           items (model.list m')
           = listingItems W (Client.ReadDir (sftpClient W) (model.currentDir m')).1 /\
           statusMessage (model.list m') = statusMessageStyle W "Entered .." /\
           fs' = fs) /\
       (handleError_returns W
          (Client.RealPath (model.sftpClient m)
             (Client.Join (model.sftpClient m) (model.currentDir m) "..")).2 = true ->
        handleError_returns W
          (Client.ReadDir (sftpClient W)
             (canonicalJoin (model.sftpClient m) (model.currentDir m) "..")).2 = true ->
        exists m' cmd, Update W m (KeyMsg "enter") fs = (Ret (m', cmd), fs)))) /\
  (handleError_returns W (Client.ReadDir c dirPath).2 = true ->
   exists l, createItemListModel W dirPath c = Ret l) /\
  title (parentItem W) = dirItemStyle W ".." /\
  rawValue (parentItem W) = None.
Proof.
  rewrite createItemListModel_unfold.
  split; [|split; [|split; reflexivity]].
  - intros l Hret.
    destruct (handleError_returns W _); [|discriminate].
    injection Hret as <-. split; [done|]. split; [done|].
    intros Hitems Hcursor.
    assert (Hsel : SelectedItem (model.list m) = Some (parentItem W)).
    { unfold SelectedItem. by rewrite Hitems, Hcursor. }
    assert (HU := Update_enter_moveDir W m fs (parentItem W) ".." Hsel eq_refl).
    split; [by apply (Update_enter_parent m fs (parentItem W))|].
    split; [rewrite HU; by destruct (moveDir W m ".." []) as [[m' cmds]| |]|].
    split; [rewrite Update_backspace;
            by destruct (moveDir W m ".." []) as [[m' cmds]| |]|].
    rewrite HU, moveDir_unfold. cbv zeta. unfold canonicalJoin.
    split.
    + intros m' cmd fs'.
      destruct (handleError_returns W _); [|discriminate].
      destruct (handleError_returns W _); [|discriminate].
      intros [= <- _ <-]. done.
    + intros -> ->. eauto.
  - intros ->. eauto.
Qed.

End ParentEntry.

(** ** Loading a key *)

Section Keys.
Context (C : Crypto).

(** C5, as amended.  For an encrypted block, [signerFromPem] fails with
    the decryption error, and returns no signer, exactly when the
    decryption step refuses the passphrase.  A passphrase that step lets
    through, incorrect or not, is never reported as a decryption failure:
    the result is then what the key decoder for the block's tag and the
    signer construction make of the bytes decryption returned. *)
Theorem signerFromPem_decryption_failure (pemBytes password : bytes) (pemBlock : Block) :
  pem_Decode C pemBytes = Some pemBlock ->
  x509_IsEncryptedPEMBlock C pemBlock = true ->
  (forall e,
      (x509_DecryptPEMBlock C pemBlock password).2 = Some e ->
      signerFromPem C pemBytes password
      = (None, Some ("decrypting PEM block failed " +:+ e))) /\
  ((x509_DecryptPEMBlock C pemBlock password).2 = None ->
   signerFromPem C pemBytes password =
     match parsePemBlock C
             (set_Bytes pemBlock (x509_DecryptPEMBlock C pemBlock password).1) with
     | (_, Some e) => (None, Some e)
     | (key, None) =>
         match ssh_NewSignerFromKey C key with
         | (_, Some e) => (None, Some ("creating signer from encrypted key failed " +:+ e))
         | (signer, None) => (signer, None)
         end
     end /\
   forall e,
     (signerFromPem C pemBytes password).2 <> Some ("decrypting PEM block failed " +:+ e)).
Proof.
  intros Hdecode Henc.
  unfold signerFromPem. rewrite Hdecode, Henc.
  destruct (x509_DecryptPEMBlock C pemBlock password) as [der derr]; simpl.
  split.
  - by intros e ->.
  - intros ->. split; [reflexivity|].
    intros e. unfold parsePemBlock.
    destruct (String.eqb _ "RSA PRIVATE KEY").
    { destruct (x509_ParsePKCS1PrivateKey C _) as [k [e'|]]; [by intros [=]|].
      destruct (ssh_NewSignerFromKey C _) as [s [e'|]]; by intros [=]. }
    destruct (String.eqb _ "EC PRIVATE KEY").
    { destruct (x509_ParseECPrivateKey C _) as [k [e'|]]; [by intros [=]|].
      destruct (ssh_NewSignerFromKey C _) as [s [e'|]]; by intros [=]. }
    destruct (String.eqb _ "DSA PRIVATE KEY").
    { destruct (ssh_ParseDSAPrivateKey C _) as [k [e'|]]; [by intros [=]|].
      destruct (ssh_NewSignerFromKey C _) as [s [e'|]]; by intros [=]. }
    by intros [=].
Qed.

(** C6.  A block that is not encrypted and that [ssh.ParsePrivateKey]
    accepts: [signerFromPem] returns the signer parsed from the raw bytes,
    whatever the passphrase; and so it does with any other decryption,
    key parsers and signer construction in place of the library's, which
    therefore play no part. *)
Theorem signerFromPem_plain_key (pemBytes password : bytes) (pemBlock : Block)
  (signer : Signer) :
  pem_Decode C pemBytes = Some pemBlock ->
  x509_IsEncryptedPEMBlock C pemBlock = false ->
  ssh_ParsePrivateKey C pemBytes = (Some signer, None) ->
  signerFromPem C pemBytes password = (Some signer, None) /\
  forall (C' : Crypto) (password' : bytes),
    pem_Decode C' = pem_Decode C ->
    x509_IsEncryptedPEMBlock C' = x509_IsEncryptedPEMBlock C ->
    ssh_ParsePrivateKey C' = ssh_ParsePrivateKey C ->
    signerFromPem C' pemBytes password' = (Some signer, None).
Proof.
  intros Hdecode Henc Hparse.
  assert (Hplain : forall (C' : Crypto) (password' : bytes),
    pem_Decode C' = pem_Decode C ->
    x509_IsEncryptedPEMBlock C' = x509_IsEncryptedPEMBlock C ->
    ssh_ParsePrivateKey C' = ssh_ParsePrivateKey C ->
    signerFromPem C' pemBytes password' = (Some signer, None)).
  { intros C' password' H1 H2 H3. unfold signerFromPem.
    rewrite H1, H2, H3, Hdecode, Henc, Hparse. reflexivity. }
  split; [|exact Hplain].
  apply Hplain; reflexivity.
Qed.

End Keys.

(** ** Running a remote command *)

Section Commands.
Context (W : World).

(** C8, as amended.  With a session at hand, [RunCommand] returns what the
    command wrote to its standard output, and only that (what it wrote to
    standard error is in no part of the result), together with the error
    the run ended with, the command being run on a session without a
    pseudo-terminal; on a host where ["echo hi"] prints ["hi\n"], that is
    the result, with no error. *)
Theorem RunCommand_returns_stdout (cmd : string) (sshClient : SSHClient) :
  NewSession_err sshClient = None ->
  handleError_returns W None = true ->
  RunCommand W cmd sshClient =
    Ret (written_to Stdout (remote_run sshClient cmd false).1,
         (remote_run sshClient cmd false).2) /\
  (remote_run sshClient "echo hi" false = ([(Stdout, "hi" +:+ newline)], None) ->
   RunCommand W "echo hi" sshClient = Ret ("hi" +:+ newline, None)).
Proof.
  intros Hsession Hnil.
  assert (Hrun : forall c : string,
    RunCommand W c sshClient =
      Ret (written_to Stdout (remote_run sshClient c false).1,
           (remote_run sshClient c false).2)).
  { intros c. unfold RunCommand, NewSession, handleError, Session_Output.
    rewrite Hsession; simpl. rewrite Hnil; simpl.
    destruct (remote_run sshClient c false) as [chunks err]. reflexivity. }
  split; [apply Hrun|].
  intros Hecho. rewrite Hrun, Hecho. reflexivity.
Qed.

End Commands.

(** ** The statements at work on the example host *)

(** A refused listing of [docs], with a [handleError] that returns and with
    one that does not. *)
Lemma moveDir_failed_listing_witness :
  Client.ReadDir deniedClient "/home/user/docs" = ([], Some "permission denied") /\
  nav_of (moveDir (plainWorld lenient deniedClient) (atUser deniedClient 1) "docs" [])
  = Ret ("/home/user/docs", [parentItem (plainWorld lenient deniedClient)]) /\
  nav_of (moveDir (plainWorld strict deniedClient) (atUser deniedClient 1) "docs" [])
  = Exit (Some "permission denied").
Proof.
  split; [reflexivity|]. split.
  - exact (moveDir_failed_listing (plainWorld lenient deniedClient)
             (atUser deniedClient 1) "docs" [] "/home/user/docs" [] "permission denied"
             eq_refl eq_refl eq_refl).
  - exact (moveDir_failed_listing (plainWorld strict deniedClient)
             (atUser deniedClient 1) "docs" [] "/home/user/docs" [] "permission denied"
             eq_refl eq_refl eq_refl).
Defined.

(** C1 as stated fails: with [docs] selected in [/home/user] and its
    listing refused, no [handleError] whatsoever makes "enter" return a
    model that still has the path and the items it was given. *)
Lemma failed_listing_loses_state :
  ~ exists h : option error -> bool,
      keeps_nav (plainWorld h deniedClient) (atUser deniedClient 1) (KeyMsg "enter") ∅.
Proof.
  intros (h & m' & cmd & fs' & HU & Hnav).
  rewrite (Update_enter_moveDir _ _ _ (decorate (plainWorld strict deniedClient) docs) "docs")
    in HU by (try split; reflexivity).
  rewrite moveDir_unfold in HU. simpl in HU.
  destruct (h None); [|discriminate].
  destruct (h (Some "permission denied")); [|discriminate].
  injection HU as <- _ _. discriminate Hnav.
Qed.

(** The scenario of the specification: in [/home/user], "enter" on [docs]. *)
Lemma Update_enter_directory_witness :
  SelectedItem (model.list (atUser goodClient 1))
  = Some (decorate (plainWorld strict goodClient) docs) /\
  exists m' cmd,
    Update (plainWorld strict goodClient) (atUser goodClient 1) (KeyMsg "enter") ∅
    = (Ret (m', cmd), ∅) /\
    items (model.list m') !! 0 = Some (parentItem (plainWorld strict goodClient)) /\
    model.currentDir m' = "/home/user/docs".
Proof.
  split; [reflexivity|].
  destruct (Update_enter_directory (plainWorld strict goodClient) (atUser goodClient 1) ∅
              (decorate (plainWorld strict goodClient) docs) docs
              eq_refl eq_refl eq_refl) as [Hshape Hreturns].
  destruct (Hreturns eq_refl eq_refl) as (m' & cmd & HU).
  exists m', cmd. split; [exact HU|].
  exact (Hshape m' cmd ∅ HU).
Defined.

(** At the root of the example host, three times "backspace". *)
Lemma EnterParent_at_root_witness :
  Client.Join goodClient "/" ".." = "/" /\
  exists m1 m3,
    run (plainWorld strict goodClient) [KeyMsg "backspace"] (atRoot goodClient) ∅
    = (Ret m1, ∅) /\
    run (plainWorld strict goodClient) (replicate 3 (KeyMsg "backspace")) (atRoot goodClient) ∅
    = (Ret m3, ∅) /\
    nav m3 = nav m1 /\
    nav m1 = nav (atRoot goodClient).
Proof.
  split; [reflexivity|].
  destruct (EnterParent_at_root (plainWorld strict goodClient) 2 (atRoot goodClient) ∅ [home]
              eq_refl eq_refl eq_refl) as (m1 & m3 & H1 & H3 & Hsame & Hnav & Hiff).
  exists m1, m3. split; [exact H1|]. split; [exact H3|]. split; [exact Hsame|].
  exact (proj2 Hiff eq_refl).
Defined.

(** C3 as stated fails: at the root, with the listing on display older
    than the entry [home] the server now reports, no [handleError]
    whatsoever makes "backspace" leave the navigation state as it was. *)
Lemma EnterParent_at_root_relists :
  ~ exists h : option error -> bool,
      keeps_nav (plainWorld h goodClient) (atStaleRoot goodClient) (KeyMsg "backspace") ∅.
Proof.
  intros (h & m' & cmd & fs' & HU & Hnav).
  rewrite Update_backspace, moveDir_unfold in HU. simpl in HU.
  destruct (h None); [|discriminate].
  injection HU as <- _ _. discriminate Hnav.
Qed.

(** In [/home/user], "enter" on [notes.txt]. *)
Lemma Update_enter_regular_file_witness :
  SelectedItem (model.list (atUser goodClient 2))
  = Some (decorate (plainWorld strict goodClient) notes) /\
  keeps_nav (plainWorld strict goodClient) (atUser goodClient 2) (KeyMsg "enter") ∅.
Proof.
  split; [reflexivity|].
  destruct (Update_enter_regular_file (plainWorld strict goodClient) (atUser goodClient 2) ∅
              (decorate (plainWorld strict goodClient) notes) notes
              eq_refl eq_refl eq_refl) as [_ Hreturns].
  exact (Hreturns None {[ "notes.txt" := notes_content ]} eq_refl eq_refl).
Defined.

(** The encrypted key file, opened with a passphrase the decryption
    refuses, and with its own. *)
Lemma signerFromPem_decryption_failure_witness :
  x509_DecryptPEMBlock toyCrypto
    {| Block_Type := "RSA PRIVATE KEY";
       Block_Headers := {[ "DEK-Info" := "AES-128-CBC,00" ]};
       Block_Bytes := [Byte.x01; Byte.x02] |} [Byte.x77]
  = ([], Some "x509: decryption password incorrect") /\
  signerFromPem toyCrypto encryptedKeyFile [Byte.x77]
  = (None, Some "decrypting PEM block failed x509: decryption password incorrect") /\
  signerFromPem toyCrypto encryptedKeyFile [Byte.x73]
  = (Some {| signer_key := [Byte.x01; Byte.x02] |}, None).
Proof.
  split; [reflexivity|]. split.
  - exact (proj1 (signerFromPem_decryption_failure toyCrypto encryptedKeyFile [Byte.x77]
                    {| Block_Type := "RSA PRIVATE KEY";
                       Block_Headers := {[ "DEK-Info" := "AES-128-CBC,00" ]};
                       Block_Bytes := [Byte.x01; Byte.x02] |} eq_refl eq_refl)
             "x509: decryption password incorrect" eq_refl).
  - exact (proj1 (proj2 (signerFromPem_decryption_failure toyCrypto encryptedKeyFile
                           [Byte.x73]
                           {| Block_Type := "RSA PRIVATE KEY";
                              Block_Headers := {[ "DEK-Info" := "AES-128-CBC,00" ]};
                              Block_Bytes := [Byte.x01; Byte.x02] |} eq_refl eq_refl)
                    eq_refl)).
Defined.

(** C5 as stated fails: the key file is encrypted with the passphrase [s],
    which opens it; the passphrase [w] is another one, which the
    decryption does not detect; with it [signerFromPem] fails in the RSA
    parser, with that step's error and not with a decryption error. *)
Lemma signerFromPem_undetected_passphrase :
  signerFromPem noisyCrypto encryptedKeyFile [Byte.x73]
  = (Some {| signer_key := [Byte.x01; Byte.x02] |}, None) /\
  [Byte.x77] <> [Byte.x73] /\
  signerFromPem noisyCrypto encryptedKeyFile [Byte.x77]
  = (None, Some "parsing PKCS private key failed asn1: structure error") /\
  ~ exists e,
      signerFromPem noisyCrypto encryptedKeyFile [Byte.x77]
      = (None, Some ("decrypting PEM block failed " +:+ e)).
Proof.
  split; [reflexivity|]. split; [discriminate|]. split; [reflexivity|].
  intros [e He]. discriminate He.
Qed.

(** The plain key file, with no passphrase, with one, and with a library
    whose decryption and key parsers always fail. *)
Lemma signerFromPem_plain_key_witness :
  signerFromPem toyCrypto plainKeyFile []
  = (Some {| signer_key := [Byte.x01; Byte.x02] |}, None) /\
  signerFromPem toyCrypto plainKeyFile [Byte.x77]
  = (Some {| signer_key := [Byte.x01; Byte.x02] |}, None) /\
  signerFromPem toyCrypto_no_decrypt plainKeyFile [Byte.x77]
  = (Some {| signer_key := [Byte.x01; Byte.x02] |}, None).
Proof.
  pose proof (signerFromPem_plain_key toyCrypto plainKeyFile []
                {| Block_Type := "RSA PRIVATE KEY"; Block_Headers := ∅;
                   Block_Bytes := [Byte.x01; Byte.x02] |}
                {| signer_key := [Byte.x01; Byte.x02] |}
                eq_refl eq_refl eq_refl) as [Hplain Hany].
  split; [exact Hplain|]. split.
  - exact (Hany toyCrypto [Byte.x77] eq_refl eq_refl eq_refl).
  - exact (Hany toyCrypto_no_decrypt [Byte.x77] eq_refl eq_refl eq_refl).
Defined.

(** A download that breaks off after two bytes, and one of a file that
    cannot be opened. *)
Lemma downloadFile_returns_copy_error_witness :
  downloadFile (plainWorld strict flakyClient) (atUser flakyClient 2)
    "/home/user" "notes.txt" ∅
  = (Ret (Some "connection lost"), {[ "notes.txt" := [Byte.x68; Byte.x69] ]}) /\
  downloadFile (plainWorld strict unreadableClient) (atUser unreadableClient 2)
    "/home/user" "notes.txt" ∅
  = (Exit (Some "permission denied"), ∅).
Proof.
  split.
  - pose proof (downloadFile_returns_copy_error (plainWorld strict flakyClient)
                  (atUser flakyClient 2) "/home/user" "notes.txt" ∅) as (_ & Hcopy & _).
    exact (Hcopy {| rf_content := notes_content; rf_fault := Some (2, "connection lost") |}
             eq_refl eq_refl eq_refl).
  - pose proof (downloadFile_returns_copy_error (plainWorld strict unreadableClient)
                  (atUser unreadableClient 2) "/home/user" "notes.txt" ∅)
      as (_ & _ & Hopen & _).
    exact (proj2 (Hopen "permission denied" eq_refl) eq_refl).
Defined.

(** C7 as stated fails: when [notes.txt] cannot be opened, no [handleError]
    whatsoever makes [downloadFile] return anything to its caller, let
    alone the error of the open. *)
Lemma downloadFile_drops_open_error :
  Client.Open unreadableClient (Client.Join unreadableClient "/home/user" "notes.txt")
  = (None, Some "permission denied") /\
  ~ exists (h : option error -> bool) (err : option error) (fs' : LocalFS),
      downloadFile (plainWorld h unreadableClient) (atUser unreadableClient 2)
        "/home/user" "notes.txt" ∅ = (Ret err, fs').
Proof.
  split; [reflexivity|].
  intros (h & err & fs' & Hret).
  unfold downloadFile in Hret. simpl in Hret.
  unfold mbind, M_bind, bind, lift, handleError, os_Create in Hret. simpl in Hret.
  destruct (h (Some "permission denied")); [|discriminate].
  simpl in Hret. destruct (h None); discriminate.
Qed.

(** ["echo hi"] on the example host. *)
Lemma RunCommand_returns_stdout_witness :
  RunCommand (plainWorld strict goodClient) "echo hi" buildHost
  = Ret ("hi" +:+ newline, None).
Proof.
  exact (proj2 (RunCommand_returns_stdout (plainWorld strict goodClient) "echo hi" buildHost
                  eq_refl eq_refl) eq_refl).
Defined.

(** C8 as stated fails when "combined" takes in standard error: [make]
    writes a warning there and a line to standard output, and no
    [handleError] whatsoever makes [RunCommand] return the two together. *)
Lemma RunCommand_drops_stderr :
  combined (remote_run buildHost "make" false).1
  = "warning: unused" +:+ newline +:+ "done" +:+ newline /\
  RunCommand (plainWorld strict goodClient) "make" buildHost
  = Ret ("done" +:+ newline, None) /\
  ~ exists (h : option error -> bool) (err : option error),
      RunCommand (plainWorld h goodClient) "make" buildHost
      = Ret (combined (remote_run buildHost "make" false).1, err).
Proof.
  split; [reflexivity|]. split; [reflexivity|].
  intros (h & err & Hret).
  unfold RunCommand, handleError in Hret. simpl in Hret.
  destruct (h None); simpl in Hret; discriminate.
Qed.

(** [notes.txt] downloaded over an older local file of that name. *)
Lemma downloadFile_copies_file_witness :
  downloadFile (plainWorld strict goodClient) (atUser goodClient 2) "/home/user" "notes.txt"
    {[ "notes.txt" := [Byte.x00; Byte.x01; Byte.x02; Byte.x03; Byte.x04] ]}
  = (Ret None, {[ "notes.txt" := notes_content ]}) /\
  length notes_content = 3.
Proof.
  split; [|reflexivity].
  destruct (downloadFile_copies_file (plainWorld strict goodClient) (atUser goodClient 2)
              "/home/user" "notes.txt"
              {[ "notes.txt" := [Byte.x00; Byte.x01; Byte.x02; Byte.x03; Byte.x04] ]}
              {| rf_content := notes_content; rf_fault := None |}
              eq_refl eq_refl) as [_ Hreturns].
  exact (Hreturns eq_refl eq_refl).
Defined.

(** The listing of [/home/user/docs], and "enter" and "backspace" on its
    first entry: both lead to [/home/user]. *)
Lemma parent_entry_first_witness :
  createItemListModel (plainWorld strict goodClient) "/home/user/docs" goodClient
  = Ret (items (model.list (atDocs goodClient))) /\
  items (model.list (atDocs goodClient)) !! 0
  = Some (parentItem (plainWorld strict goodClient)) /\
  nav_of (Update (plainWorld strict goodClient) (atDocs goodClient) (KeyMsg "enter") ∅).1
  = Ret ("/home/user", listingItems (plainWorld strict goodClient) [docs; notes]) /\
  nav_of (Update (plainWorld strict goodClient) (atDocs goodClient) (KeyMsg "backspace") ∅).1
  = Ret ("/home/user", listingItems (plainWorld strict goodClient) [docs; notes]).
Proof.
  split; [reflexivity|].
  destruct (parent_entry_first (plainWorld strict goodClient) "/home/user/docs" goodClient
              (atDocs goodClient) ∅) as (Hfirst & _).
  destruct (Hfirst (items (model.list (atDocs goodClient))) eq_refl)
    as (_ & Hhead & Hmove).
  destruct (Hmove eq_refl eq_refl) as (_ & Henter & Hback & _).
  split; [exact Hhead|]. split; [exact Henter|exact Hback].
Defined.

(** * Further properties of the two files *)

(** ** What a listing holds *)

Section Listings.
Context (W : World).

(** X1.  The list [createItemListModel] returns holds, after the parent
    entry, one item for every record of the listing, in the listing's
    order and carrying that record: nothing is dropped, merged or
    reordered, and entry [i] of the listing is item [i + 1]. *)
Theorem createItemListModel_keeps_records (dirPath : string) (c : Client.t)
  (l : list item) :
  createItemListModel W dirPath c = Ret l ->
  length l = S (length (Client.ReadDir c dirPath).1) /\
  map rawValue l = None :: map Some (Client.ReadDir c dirPath).1 /\
  forall (i : nat) (value : FileInfo.t),
    (Client.ReadDir c dirPath).1 !! i = Some value ->
    exists it,
      l !! S i = Some it /\ rawValue it = Some value /\
      Description it = (getDecorations W value).2 /\
      Title it =
        (getDecorations W value).1 +:+ " " +:+
        (if FileInfo.IsDir value then dirItemStyle W else fileItemStyle W)
          (FileInfo.Name value).
Proof.
  rewrite createItemListModel_unfold.
  destruct (handleError_returns W _); [|discriminate].
  intros [= <-]. unfold listingItems.
  set (fileList := (Client.ReadDir c dirPath).1).
  split; [|split].
  - simpl. by rewrite length_map.
  - simpl. f_equal. rewrite <- list_fmap_compose.
    apply list_fmap_ext. intros _ value _. unfold decorate; simpl.
    by destruct (getDecorations W value).
  - intros i value Hi. exists (decorate W value).
    split; [simpl; by rewrite list_lookup_fmap, Hi|].
    unfold decorate, Title, Description.
    destruct (getDecorations W value) as [icon status]; simpl.
    by destruct (FileInfo.IsDir value).
Qed.

End Listings.

(** ** What [Update] leaves alone *)

Section Frames.
Context (W : World).

Lemma is_navigation_keys (msg : Msg) :
  is_navigation msg = true -> msg = KeyMsg "backspace" \/ msg = KeyMsg "enter".
Proof.
  destruct msg as [key| | |]; simpl; try discriminate.
  intros [H|H]%orb_true_iff; apply String.eqb_eq in H; subst; auto.
Qed.

(** A message that is neither "backspace" nor "enter" is handled without a
    call to the remote side or to [handleError]: [Update] returns, with the
    path, the client, the progress bar's owner and the local files as they
    were, and with items that are the old ones or what [list.Update] made
    of them. *)
Lemma Update_not_navigation (m : model) (msg : Msg) (fs : LocalFS) :
  is_navigation msg = false ->
  exists m' cmd,
    Update W m msg fs = (Ret (m', cmd), fs) /\
    model.currentDir m' = model.currentDir m /\
    model.sftpClient m' = model.sftpClient m /\
    (items (model.list m') = items (model.list m) \/
     exists l, items l = items (model.list m) /\
               items (model.list m') = items (list_Update W l msg).1).
Proof.
  intros Hnav.
  assert (Hlist : forall m0 : model,
    model.currentDir m0 = model.currentDir m ->
    model.sftpClient m0 = model.sftpClient m ->
    items (model.list m0) = items (model.list m) ->
    exists m' cmd,
      Update_list W m0 msg fs = (Ret (m', cmd), fs) /\
      model.currentDir m' = model.currentDir m /\
      model.sftpClient m' = model.sftpClient m /\
      (items (model.list m') = items (model.list m) \/
       exists l, items l = items (model.list m) /\
                 items (model.list m') = items (list_Update W l msg).1)).
  { intros m0 Hd Hc Hi. unfold Update_list.
    destruct (list_Update W (model.list m0) msg) as [l cmd] eqn:Hl.
    exists (set_list m0 l), cmd. repeat split; try done.
    right. exists (model.list m0). by rewrite Hl. }
  destruct msg as [key| |Width Height|tag]; simpl in Hnav.
  - apply orb_false_elim in Hnav as [Hback Henter].
    unfold Update. rewrite Hback, Henter.
    destruct (String.eqb key "ctrl+c").
    + exists m, Quit. repeat split; auto.
    + by apply Hlist.
  - unfold Update; simpl. eexists _, _. split; [reflexivity|]. simpl. auto.
  - unfold Update. destruct (docStyle_GetFrameSize W) as [h v].
    by apply Hlist.
  - unfold Update. by apply Hlist.
Qed.

(** Handling such a message uses nothing of the remote side and nothing
    of [handleError]: with another world that has the same [list.Update]
    and frame size, and another model with the same list, progress bar and
    path, the outcome is the same. *)
Lemma Update_not_navigation_local (W2 : World) (m m2 : model) (msg : Msg)
  (fs : LocalFS) :
  is_navigation msg = false ->
  list_Update W2 = list_Update W ->
  docStyle_GetFrameSize W2 = docStyle_GetFrameSize W ->
  model.list m2 = model.list m ->
  model.progressBar m2 = model.progressBar m ->
  model.currentDir m2 = model.currentDir m ->
  match Update W m msg fs, Update W2 m2 msg fs with
  | (Ret (m', cmd), _), (Ret (m2', cmd2), fs2) =>
      cmd2 = cmd /\ fs2 = fs /\
      model.list m2' = model.list m' /\
      model.progressBar m2' = model.progressBar m' /\
      model.currentDir m2' = model.currentDir m' /\
      model.sftpClient m2' = model.sftpClient m2
  | _, _ => False
  end.
Proof.
  intros Hnav Hlib Hframe Hl Hp Hd.
  assert (Hlist : forall m0 m02 : model,
    model.list m02 = model.list m0 ->
    model.progressBar m02 = model.progressBar m0 ->
    model.currentDir m02 = model.currentDir m0 ->
    model.sftpClient m02 = model.sftpClient m2 ->
    match Update_list W m0 msg fs, Update_list W2 m02 msg fs with
    | (Ret (m', cmd), _), (Ret (m2', cmd2), fs2) =>
        cmd2 = cmd /\ fs2 = fs /\
        model.list m2' = model.list m' /\
        model.progressBar m2' = model.progressBar m' /\
        model.currentDir m2' = model.currentDir m' /\
        model.sftpClient m2' = model.sftpClient m2
    | _, _ => False
    end).
  { intros m0 m02 Hl0 Hp0 Hd0 Hc0. unfold Update_list. rewrite Hlib, Hl0.
    destruct (list_Update W (model.list m0) msg) as [l cmd]. simpl. done. }
  destruct msg as [key| |Width Height|tag]; simpl in Hnav.
  - apply orb_false_elim in Hnav as [Hback Henter].
    unfold Update. rewrite Hback, Henter.
    destruct (String.eqb key "ctrl+c"); [simpl; done|].
    by apply Hlist.
  - unfold Update; simpl. by rewrite Hl, Hp, Hd.
  - unfold Update. rewrite Hframe. destruct (docStyle_GetFrameSize W) as [h v].
    apply Hlist; simpl; by rewrite ?Hl, ?Hp, ?Hd.
  - unfold Update. by apply Hlist.
Qed.

(** X2.  Every message other than the keys "backspace" and "enter" is
    handled without the remote side and without [handleError]: [Update]
    returns a model (the process neither ends nor panics), the path, the
    client and the local files are as before, "ctrl+c" returns the model
    untouched with the quit command, the items on display change only if
    bubbles' own [list.Update] changes them, and the list, the progress
    bar, the path and the command returned are the same whatever the
    remote clients (the model's and the package's), [handleError] and the
    styles are. *)
Theorem Update_without_navigation (m : model) (msg : Msg) (fs : LocalFS) :
  is_navigation msg = false ->
  exists m' cmd,
    Update W m msg fs = (Ret (m', cmd), fs) /\
    model.currentDir m' = model.currentDir m /\
    model.sftpClient m' = model.sftpClient m /\
    (msg = KeyMsg "ctrl+c" -> m' = m /\ cmd = Quit) /\
    ((forall l msg', items (list_Update W l msg').1 = items l) -> nav m' = nav m) /\
    (forall (W2 : World) (m2 : model),
        list_Update W2 = list_Update W ->
        docStyle_GetFrameSize W2 = docStyle_GetFrameSize W ->
        model.list m2 = model.list m ->
        model.progressBar m2 = model.progressBar m ->
        model.currentDir m2 = model.currentDir m ->
        exists m2',
          Update W2 m2 msg fs = (Ret (m2', cmd), fs) /\
          model.list m2' = model.list m' /\
          model.progressBar m2' = model.progressBar m' /\
          model.currentDir m2' = model.currentDir m' /\
          model.sftpClient m2' = model.sftpClient m2).
Proof.
  intros Hnav.
  destruct (Update_not_navigation m msg fs Hnav) as (m' & cmd & HU & Hd & Hc & Hi).
  exists m', cmd. split; [exact HU|]. split; [exact Hd|]. split; [exact Hc|].
  split; [|split].
  - intros ->. unfold Update in HU; simpl in HU. by injection HU as <- <-.
  - intros Hlib. unfold nav. rewrite Hd. f_equal.
    destruct Hi as [Hi|(l & Hl & Hi)]; [done|]. by rewrite Hi, Hlib.
  - intros W2 m2 Hlib Hframe Hl Hp Hd2.
    pose proof (Update_not_navigation_local W2 m m2 msg fs Hnav Hlib Hframe Hl Hp Hd2)
      as Hlocal.
    rewrite HU in Hlocal.
    destruct (Update W2 m2 msg fs) as [[[m2' cmd2]| |] fs2]; [|done|done].
    destruct Hlocal as (-> & -> & Hrest). by exists m2'.
Qed.

(** The local files after [downloadFile], whatever its outcome, differ
    from those before at most at the destination. *)
Lemma downloadFile_frame (m : model) (filePath fileName : string) (fs : LocalFS)
  (p : string) :
  p <> filepath_Join W "." fileName ->
  (downloadFile W m filePath fileName fs).2 !! p = fs !! p.
Proof.
  intros Hp. unfold downloadFile.
  destruct (Client.Open _ _) as [srcFile oerr].
  unfold mbind, M_bind, bind, lift, handleError, os_Create; simpl.
  destruct (handleError_returns W oerr); [|done].
  destruct (os_Create_err W _) as [cerr|]; simpl.
  - destruct (handleError_returns W (Some cerr)); [|done].
    unfold io_Copy. destruct srcFile as [f|]; [|done].
    destruct (delivered f) as [[|b data] rerr]; done.
  - destruct (handleError_returns W None); simpl;
      [|by rewrite lookup_insert_ne].
    unfold io_Copy. destruct srcFile as [f|]; simpl;
      [|by rewrite lookup_insert_ne].
    destruct (delivered f) as [data rerr]; simpl.
    by rewrite !lookup_insert_ne.
Qed.

Lemma Update_enter_nothing (m : model) (fs : LocalFS) :
  SelectedItem (model.list m) = None ->
  Update W m (KeyMsg "enter") fs
  = (Panic "interface conversion: interface is nil, not *main.item", fs).
Proof. intros Hsel. unfold Update; simpl. by rewrite Hsel. Qed.

(** X3.  The only local file [Update] ever changes, whatever the message
    and however handling it ends, is the destination of a download: if a
    path holds something else after [Update] than before, the message was
    "enter" on a regular file and the path is [filepath.Join(".", name)]
    for that file's name. *)
Theorem Update_local_files (m : model) (msg : Msg) (fs : LocalFS) (p : string) :
  (Update W m msg fs).2 !! p <> fs !! p ->
  msg = KeyMsg "enter" /\
  exists selected fi,
    SelectedItem (model.list m) = Some selected /\
    rawValue selected = Some fi /\
    FileInfo.IsDir fi = false /\
    p = filepath_Join W "." (FileInfo.Name fi).
Proof.
  intros Hchanged.
  destruct (is_navigation msg) eqn:Hnav.
  - destruct (is_navigation_keys msg Hnav) as [-> | ->].
    + rewrite Update_backspace in Hchanged.
      by destruct (moveDir W m ".." []) as [[m' cmds]| |].
    + split; [done|].
      destruct (SelectedItem (model.list m)) as [selected|] eqn:Hsel;
        [|by rewrite (Update_enter_nothing m fs Hsel) in Hchanged].
      destruct (rawValue selected) as [fi|] eqn:Hraw.
      * destruct (FileInfo.IsDir fi) eqn:Hdir.
        -- rewrite (Update_enter_moveDir W m fs selected (FileInfo.Name fi) Hsel)
             in Hchanged by (by rewrite Hraw).
           by destruct (moveDir W m _ []) as [[m' cmds]| |].
        -- exists selected, fi. repeat split; try done.
           destruct (decide (p = filepath_Join W "." (FileInfo.Name fi))) as [|Hp]; [done|].
           exfalso. apply Hchanged.
           rewrite (Update_enter_file W m fs selected fi Hsel Hraw Hdir).
           rewrite <- (downloadFile_frame m (model.currentDir m) (FileInfo.Name fi) fs p Hp).
           destruct (downloadFile W m _ _ fs) as [[err| |] fs1]; simpl; [|done|done].
           by destruct (handleError_returns W err).
      * rewrite (Update_enter_moveDir W m fs selected ".." Hsel)
          in Hchanged by (by rewrite Hraw).
        by destruct (moveDir W m ".." []) as [[m' cmds]| |].
  - destruct (Update_not_navigation m msg fs Hnav) as (m' & cmd & HU & _).
    by rewrite HU in Hchanged.
Qed.

End Frames.

(** ** What the event loop keeps *)

Section Invariants.
Context (W : World).

Lemma entered_shows_listing (m : model) (p name : string) :
  shows_current_listing W
    (entered W m p (listingItems W (Client.ReadDir (sftpClient W) p).1) name).
Proof. reflexivity. Qed.

Lemma moveDir_shows_listing (m m' : model) (name : string) (cmds cmds' : list Cmd) :
  moveDir W m name cmds = Ret (m', cmds') ->
  shows_current_listing W m' /\ model.sftpClient m' = model.sftpClient m.
Proof.
  rewrite moveDir_unfold. cbv zeta.
  destruct (handleError_returns W _); [|discriminate].
  destruct (handleError_returns W _); [|discriminate].
  intros [= <- _]. split; [apply entered_shows_listing|reflexivity].
Qed.

(** One step of the loop. *)
Lemma Update_shows_listing (m m' : model) (msg : Msg) (cmd : Cmd) (fs fs' : LocalFS) :
  (forall l msg', items (list_Update W l msg').1 = items l) ->
  shows_current_listing W m ->
  Update W m msg fs = (Ret (m', cmd), fs') ->
  shows_current_listing W m' /\ model.sftpClient m' = model.sftpClient m.
Proof.
  intros Hlib Hshows HU.
  destruct (is_navigation msg) eqn:Hnav.
  - destruct (is_navigation_keys msg Hnav) as [-> | ->].
    + rewrite Update_backspace in HU.
      destruct (moveDir W m ".." []) as [[m1 cmds]| |] eqn:Hmove; [|done|done].
      injection HU as <- _ _. exact (moveDir_shows_listing _ _ _ _ _ Hmove).
    + destruct (SelectedItem (model.list m)) as [selected|] eqn:Hsel;
        [|by rewrite (Update_enter_nothing W m fs Hsel) in HU].
      assert (Hmoved : forall name : string,
        Update W m (KeyMsg "enter") fs =
          match moveDir W m name [] with
          | Ret (m1, cmds) =>
              (Ret (set_progressBar m1 (Call_IncrPercent_tenth :: model.progressBar m1),
                    Batch (cmds ++ [NextFrame])), fs)
          | Exit e => (Exit e, fs)
          | Panic w => (Panic w, fs)
          end ->
        shows_current_listing W m' /\ model.sftpClient m' = model.sftpClient m).
      { intros name Heq. rewrite Heq in HU.
        destruct (moveDir W m name []) as [[m1 cmds]| |] eqn:Hmove; [|done|done].
        injection HU as <- _ _.
        exact (moveDir_shows_listing _ _ _ _ _ Hmove). }
      destruct (rawValue selected) as [fi|] eqn:Hraw.
      * destruct (FileInfo.IsDir fi) eqn:Hdir.
        -- apply (Hmoved (FileInfo.Name fi)).
           apply (Update_enter_moveDir W m fs selected); [done|by rewrite Hraw].
        -- rewrite (Update_enter_file W m fs selected fi Hsel Hraw Hdir) in HU.
           destruct (downloadFile W m _ _ fs) as [[err| |] fs1]; [|done|done].
           destruct (handleError_returns W err); [|done].
           injection HU as <- _ _. split; [exact Hshows|reflexivity].
      * apply (Hmoved "..").
        apply (Update_enter_moveDir W m fs selected); [done|by rewrite Hraw].
  - destruct (Update_not_navigation W m msg fs Hnav) as (m1 & cmd1 & HU1 & Hd & Hc & Hi).
    rewrite HU1 in HU. injection HU as <- _ _. split; [|exact Hc].
    unfold shows_current_listing in *. rewrite Hd, <- Hshows.
    destruct Hi as [Hi|(l & Hl & Hi)]; [done|]. by rewrite Hi, Hlib.
Qed.

(** X4.  Through any sequence of messages the browser keeps showing the
    listing of the directory it is in: provided bubbles' [list.Update]
    does not replace the items, a model whose items are the listing of its
    path (parent entry first) is followed, after every run of the loop
    that returns, by a model of which the same holds; its first item is
    the parent entry, and its client is the one it started with. *)
Theorem run_shows_current_listing (msgs : list Msg) (m m' : model) (fs fs' : LocalFS) :
  (forall l msg, items (list_Update W l msg).1 = items l) ->
  shows_current_listing W m ->
  run W msgs m fs = (Ret m', fs') ->
  shows_current_listing W m' /\
  items (model.list m') !! 0 = Some (parentItem W) /\
  model.sftpClient m' = model.sftpClient m.
Proof.
  intros Hlib. revert m fs.
  induction msgs as [|msg rest IH]; intros m fs Hshows Hrun.
  - injection Hrun as <- _. split; [done|]. split; [by rewrite Hshows|done].
  - rewrite run_cons in Hrun.
    destruct (Update W m msg fs) as [[[m1 cmd]| |] fs1] eqn:HU; [|done|done].
    destruct (Update_shows_listing m m1 msg cmd fs fs1 Hlib Hshows HU) as [Hshows1 Hc1].
    destruct (IH m1 fs1 Hshows1 Hrun) as (Hs & Hfirst & Hc).
    split; [done|]. split; [done|]. by rewrite Hc.
Qed.

(** X5.  Into a directory and back: with a directory entry selected,
    "enter" followed by "backspace" ends, when the server resolves the
    parent of the directory entered to the directory left and
    [handleError] returns on the way, in the directory left, showing its
    listing; so from a model that showed that listing the navigation
    state is the one it started from. *)
Theorem enter_then_backspace (m : model) (fs : LocalFS) (selected : item)
  (fi : FileInfo.t) :
  let c := model.sftpClient m in
  let there := Client.RealPath c (Client.Join c (model.currentDir m) (FileInfo.Name fi)) in
  let back := Client.RealPath c (Client.Join c there.1 "..") in
  SelectedItem (model.list m) = Some selected ->
  rawValue selected = Some fi ->
  FileInfo.IsDir fi = true ->
  back.1 = model.currentDir m ->
  handleError_returns W there.2 = true ->
  handleError_returns W (Client.ReadDir (sftpClient W) there.1).2 = true ->
  handleError_returns W back.2 = true ->
  handleError_returns W (Client.ReadDir (sftpClient W) (model.currentDir m)).2 = true ->
  exists m',
    run W [KeyMsg "enter"; KeyMsg "backspace"] m fs = (Ret m', fs) /\
    model.currentDir m' = model.currentDir m /\
    shows_current_listing W m' /\
    (shows_current_listing W m -> nav m' = nav m).
Proof.
  intros c there back Hsel Hraw Hdir Hback H1 H2 H3 H4.
  rewrite run_cons.
  rewrite (Update_enter_moveDir W m fs selected (FileInfo.Name fi) Hsel)
    by (by rewrite Hraw).
  rewrite moveDir_unfold. cbv zeta. fold c. fold there. rewrite H1, H2.
  rewrite run_cons, Update_backspace, moveDir_unfold. cbv zeta.
  cbn [entered set_progressBar model.sftpClient model.currentDir model.list model.progressBar].
  fold c. fold back. rewrite H3, Hback, H4.
  eexists. split; [reflexivity|].
  split; [reflexivity|]. split; [reflexivity|].
  intros Hshows. unfold nav. cbn. by rewrite Hshows.
Qed.

(** X6.  "enter" with no item selected (the selection lies beyond the
    items on display) panics on the type assertion, before any call to
    the remote side, with the local files as they were. *)
Theorem Update_enter_out_of_range (m : model) (fs : LocalFS) :
  length (items (model.list m)) <= cursor (model.list m) ->
  exists why, Update W m (KeyMsg "enter") fs = (Panic why, fs).
Proof.
  intros Hrange. eexists. apply Update_enter_nothing.
  unfold SelectedItem. by apply lookup_ge_None_2.
Qed.

End Invariants.

(** ** What a download leaves behind *)

Section Leftovers.
Context (W : World).

Lemma delivered_prefix (f : RemoteFile) : (delivered f).1 `prefix_of` rf_content f.
Proof.
  unfold delivered. destruct (rf_fault f) as [[k e]|]; simpl.
  - exists (drop k (rf_content f)). by rewrite take_drop.
  - done.
Qed.

(** X7.  However [downloadFile] ends (it returns, the process ends, or it
    panics), the local destination is afterwards either what it was or a
    prefix of the remote file's bytes, empty when the remote file could
    not be opened: once the destination has been created nothing of an
    older local file of that name survives, and nothing is ever written
    that the remote file does not hold. *)
Theorem downloadFile_leaves_prefix (m : model) (filePath fileName : string)
  (fs : LocalFS) :
  let opened :=
    Client.Open (model.sftpClient m) (Client.Join (model.sftpClient m) filePath fileName) in
  let dest := filepath_Join W "." fileName in
  let fs' := (downloadFile W m filePath fileName fs).2 in
  fs' = fs \/
  exists data,
    fs' = <[dest := data]> fs /\
    match opened.1 with
    | Some f => data `prefix_of` rf_content f
    | None => data = []
    end.
Proof.
  intros opened dest fs'. subst fs'. unfold downloadFile. fold opened. fold dest.
  destruct opened as [srcFile oerr].
  unfold mbind, M_bind, bind, lift, handleError, os_Create; simpl.
  destruct (handleError_returns W oerr); [|by left].
  destruct (os_Create_err W dest) as [cerr|]; simpl.
  - left. destruct (handleError_returns W (Some cerr)); [|done].
    unfold io_Copy. destruct srcFile as [f|]; [|done].
    destruct (delivered f) as [[|b data] rerr]; done.
  - right. destruct (handleError_returns W None); simpl.
    + unfold io_Copy. destruct srcFile as [f|]; simpl.
      * pose proof (delivered_prefix f) as Hprefix.
        destruct (delivered f) as [data rerr]; simpl in *.
        exists data. by rewrite lookup_insert_eq, insert_insert_eq.
      * by exists [].
    + exists []. split; [done|]. destruct srcFile; [apply prefix_nil|done].
Qed.

End Leftovers.

(** ** Keys *)

Section MoreKeys.
Context (C : Crypto).

(** X8.  [parsePemBlock] returns either a key and no error or an error and
    no key; a key is of the kind the block's tag names and is what that
    kind's parser, and no other, made of the block's bytes; and a tag that
    is none of the three gives the unsupported-type error naming the tag,
    whatever the bytes. *)
Theorem parsePemBlock_dispatch (block : Block) :
  match parsePemBlock C block with
  | (Some (RSAPrivateKey k), None) =>
      Block_Type block = "RSA PRIVATE KEY" /\
      x509_ParsePKCS1PrivateKey C (Block_Bytes block) = (k, None)
  | (Some (ECPrivateKey k), None) =>
      Block_Type block = "EC PRIVATE KEY" /\
      x509_ParseECPrivateKey C (Block_Bytes block) = (k, None)
  | (Some (DSAPrivateKey k), None) =>
      Block_Type block = "DSA PRIVATE KEY" /\
      ssh_ParseDSAPrivateKey C (Block_Bytes block) = (k, None)
  | (None, Some e) =>
      Block_Type block <> "RSA PRIVATE KEY" ->
      Block_Type block <> "EC PRIVATE KEY" ->
      Block_Type block <> "DSA PRIVATE KEY" ->
      e = "parsing private key failed, unsupported key type "
          +:+ strconv_Quote C (Block_Type block)
  | _ => False
  end.
Proof.
  unfold parsePemBlock.
  destruct (String.eqb_spec (Block_Type block) "RSA PRIVATE KEY") as [Hrsa|Hrsa].
  { destruct (x509_ParsePKCS1PrivateKey C _) as [k [e|]]; [|done]. by intros []. }
  destruct (String.eqb_spec (Block_Type block) "EC PRIVATE KEY") as [Hec|Hec].
  { destruct (x509_ParseECPrivateKey C _) as [k [e|]]; [|done]. by intros _ []. }
  destruct (String.eqb_spec (Block_Type block) "DSA PRIVATE KEY") as [Hdsa|Hdsa].
  { destruct (ssh_ParseDSAPrivateKey C _) as [k [e|]]; [|done]. by intros _ _ []. }
  done.
Qed.

Lemma parsePemBlock_decodes (block : Block) (key : Key) :
  decodes C (Block_Type block) (Block_Bytes block) key ->
  parsePemBlock C block = (Some key, None).
Proof.
  unfold parsePemBlock.
  intros [(Htag & k & Hparse & ->)|[(Htag & k & Hparse & ->)|(Htag & k & Hparse & ->)]];
    rewrite Htag; simpl; by rewrite Hparse.
Qed.

(** X9.  An encrypted key of each of the three kinds, opened with a
    passphrase the decryption accepts: when the decoder for the block's
    tag accepts the decrypted bytes and a signer can be made from the key,
    [signerFromPem] returns that signer and no error.  The decoder is
    given the decrypted bytes, not the block's own. *)
Theorem signerFromPem_encrypted_key (pemBytes password : bytes) (pemBlock : Block)
  (der : bytes) (key : Key) (signer : option Signer) :
  pem_Decode C pemBytes = Some pemBlock ->
  x509_IsEncryptedPEMBlock C pemBlock = true ->
  x509_DecryptPEMBlock C pemBlock password = (der, None) ->
  decodes C (Block_Type pemBlock) der key ->
  ssh_NewSignerFromKey C (Some key) = (signer, None) ->
  signerFromPem C pemBytes password = (signer, None).
Proof.
  intros Hdecode Henc Hdecrypt Hkey Hsigner.
  unfold signerFromPem. rewrite Hdecode, Henc, Hdecrypt.
  rewrite (parsePemBlock_decodes (set_Bytes pemBlock der) key Hkey).
  by rewrite Hsigner.
Qed.

Lemma parsePemBlock_fails (block : Block) (key : option Key) (e : error) :
  parsePemBlock C block = (key, Some e) <->
  key = None /\
  ((Block_Type block = "RSA PRIVATE KEY" /\
    exists e', (x509_ParsePKCS1PrivateKey C (Block_Bytes block)).2 = Some e' /\
               e = "parsing PKCS private key failed " +:+ e') \/
   (Block_Type block = "EC PRIVATE KEY" /\
    exists e', (x509_ParseECPrivateKey C (Block_Bytes block)).2 = Some e' /\
               e = "parsing EC private key failed " +:+ e') \/
   (Block_Type block = "DSA PRIVATE KEY" /\
    exists e', (ssh_ParseDSAPrivateKey C (Block_Bytes block)).2 = Some e' /\
               e = "parsing DSA private key failed " +:+ e') \/
   (Block_Type block <> "RSA PRIVATE KEY" /\
    Block_Type block <> "EC PRIVATE KEY" /\
    Block_Type block <> "DSA PRIVATE KEY" /\
    e = "parsing private key failed, unsupported key type "
        +:+ strconv_Quote C (Block_Type block))).
Proof.
  unfold parsePemBlock.
  destruct (String.eqb_spec (Block_Type block) "RSA PRIVATE KEY") as [Hrsa|Hrsa].
  { rewrite Hrsa.
    destruct (x509_ParsePKCS1PrivateKey C _) as [k [e'|]]; simpl; split.
    - intros [= <- <-]. split; [done|]. left. eauto.
    - intros [-> [(_ & e'' & [= <-] & ->)|[(? & _)|[(? & _)|(? & _)]]]]; done.
    - done.
    - intros [_ [(_ & e'' & ? & _)|[(? & _)|[(? & _)|(? & _)]]]]; done. }
  destruct (String.eqb_spec (Block_Type block) "EC PRIVATE KEY") as [Hec|Hec].
  { rewrite Hec.
    destruct (x509_ParseECPrivateKey C _) as [k [e'|]]; simpl; split.
    - intros [= <- <-]. split; [done|]. right; left. eauto.
    - intros [-> [(? & _)|[(_ & e'' & [= <-] & ->)|[(? & _)|(_ & ? & _)]]]]; done.
    - done.
    - intros [_ [(? & _)|[(_ & e'' & ? & _)|[(? & _)|(_ & ? & _)]]]]; done. }
  destruct (String.eqb_spec (Block_Type block) "DSA PRIVATE KEY") as [Hdsa|Hdsa].
  { rewrite Hdsa.
    destruct (ssh_ParseDSAPrivateKey C _) as [k [e'|]]; simpl; split.
    - intros [= <- <-]. split; [done|]. right; right; left. eauto.
    - intros [-> [(? & _)|[(? & _)|[(_ & e'' & [= <-] & ->)|(_ & _ & ? & _)]]]]; done.
    - done.
    - intros [_ [(? & _)|[(? & _)|[(_ & e'' & ? & _)|(_ & _ & ? & _)]]]]; done. }
  split.
  - intros [= <- <-]. split; [done|]. right; right; right. done.
  - intros [-> [(? & _)|[(? & _)|[(? & _)|(_ & _ & _ & ->)]]]]; done.
Qed.

Lemma parsePemBlock_key (block : Block) (key : option Key) :
  parsePemBlock C block = (key, None) ->
  exists k, key = Some k /\ decodes C (Block_Type block) (Block_Bytes block) k.
Proof.
  unfold parsePemBlock, decodes.
  destruct (String.eqb_spec (Block_Type block) "RSA PRIVATE KEY") as [Hrsa|Hrsa].
  { destruct (x509_ParsePKCS1PrivateKey C _) as [k [e'|]]; [done|].
    intros [= <-]. eexists. split; [done|]. left. eauto. }
  destruct (String.eqb_spec (Block_Type block) "EC PRIVATE KEY") as [Hec|Hec].
  { destruct (x509_ParseECPrivateKey C _) as [k [e'|]]; [done|].
    intros [= <-]. eexists. split; [done|]. right; left. eauto. }
  destruct (String.eqb_spec (Block_Type block) "DSA PRIVATE KEY") as [Hdsa|Hdsa].
  { destruct (ssh_ParseDSAPrivateKey C _) as [k [e'|]]; [done|].
    intros [= <-]. eexists. split; [done|]. right; right. eauto. }
  done.
Qed.

(** X10.  [signerFromPem] returns an error exactly when one of its steps,
    reached with the steps before it passed, fails, and then it returns
    no signer and the message of that very step followed by the
    library's error: "pem decode failed" when no envelope is found;
    "decrypting PEM block failed" when decryption refuses; "parsing PKCS /
    EC / DSA private key failed" when the parser for the block's tag
    refuses the decrypted bytes; "unsupported key type" with the quoted
    tag when the tag is none of the three; "creating signer from
    encrypted key failed" when the signer cannot be made from the parsed
    key; "parsing plain private key failed" when an unencrypted key is
    refused. *)
Theorem signerFromPem_error (pemBytes password : bytes) (signer : option Signer)
  (e : error) :
  signerFromPem C pemBytes password = (signer, Some e) <->
  signer = None /\ fails_at C pemBytes password e.
Proof.
  unfold signerFromPem, fails_at.
  destruct (pem_Decode C pemBytes) as [pemBlock|];
    [|split; [by intros [= <- <-]|by intros [-> ->]]].
  destruct (x509_IsEncryptedPEMBlock C pemBlock).
  - destruct (x509_DecryptPEMBlock C pemBlock password) as [der [derr|]]; cbn [fst snd].
    { split.
      - intros [= <- <-]. split; [done|]. left. eauto.
      - intros [-> [(e' & [= <-] & ->)|[? _]]]; done. }
    destruct (parsePemBlock C (set_Bytes pemBlock der)) as [key [perr|]] eqn:Hparse.
    + apply parsePemBlock_fails in Hparse as [-> Hstep]. cbn in Hstep. split.
      * intros [= <- <-]. split; [done|]. right. split; [done|].
        destruct Hstep as [H|[H|[H|H]]]; auto 10.
      * intros [-> [(e' & ? & _)|[_ Hsteps]]]; [done|].
        pose proof (parsePemBlock_fails (set_Bytes pemBlock der) None e) as Hiff.
        cbn in Hiff.
        destruct Hsteps as [H|[H|[H|[H|(key & e' & Hkey & _)]]]].
        1-4: assert (Hfail : parsePemBlock C (set_Bytes pemBlock der) = (None, Some e))
               by (apply Hiff; auto 10).
        1-4: assert (Hsame : parsePemBlock C (set_Bytes pemBlock der) = (None, Some perr))
               by (apply parsePemBlock_fails; cbn; auto).
        1-4: rewrite Hsame in Hfail; by injection Hfail as ->.
        pose proof (parsePemBlock_decodes (set_Bytes pemBlock der) key Hkey) as Hok.
        assert (Hsame : parsePemBlock C (set_Bytes pemBlock der) = (None, Some perr))
          by (apply parsePemBlock_fails; cbn; auto).
        rewrite Hsame in Hok. discriminate Hok.
    + destruct (parsePemBlock_key _ _ Hparse) as (k & -> & Hkey). cbn in Hkey.
      destruct (ssh_NewSignerFromKey C (Some k)) as [s [serr|]] eqn:Hsigner; split.
      * intros [= <- <-]. split; [done|]. right. split; [done|].
        right; right; right; right. exists k, serr. by rewrite Hsigner.
      * intros [-> [(e' & ? & _)|[_ Hsteps]]]; [done|].
        pose proof (parsePemBlock_fails (set_Bytes pemBlock der) None e) as Hiff.
        cbn in Hiff.
        destruct Hsteps as [H|[H|[H|[H|(key & e' & Hkey' & Hs & ->)]]]].
        1-4: assert (Hfail : parsePemBlock C (set_Bytes pemBlock der) = (None, Some e))
               by (apply Hiff; auto 10).
        1-4: rewrite Hparse in Hfail; discriminate Hfail.
        pose proof (parsePemBlock_decodes (set_Bytes pemBlock der) key Hkey') as Hok.
        rewrite Hparse in Hok. injection Hok as <-.
        rewrite Hsigner in Hs. by injection Hs as <-.
      * done.
      * intros [-> [(e' & ? & _)|[_ Hsteps]]]; [done|].
        pose proof (parsePemBlock_fails (set_Bytes pemBlock der) None e) as Hiff.
        cbn in Hiff.
        destruct Hsteps as [H|[H|[H|[H|(key & e' & Hkey' & Hs & _)]]]].
        1-4: assert (Hfail : parsePemBlock C (set_Bytes pemBlock der) = (None, Some e))
               by (apply Hiff; auto 10).
        1-4: rewrite Hparse in Hfail; discriminate Hfail.
        pose proof (parsePemBlock_decodes (set_Bytes pemBlock der) key Hkey') as Hok.
        rewrite Hparse in Hok. injection Hok as <-.
        rewrite Hsigner in Hs. discriminate Hs.
  - destruct (ssh_ParsePrivateKey C pemBytes) as [s [perr|]]; cbn [fst snd]; split.
    + intros [= <- <-]. split; [done|]. eauto.
    + by intros [-> (e' & [= <-] & ->)].
    + done.
    + by intros [_ (e' & ? & _)].
Qed.

End MoreKeys.

(** ** Commands and connections *)

Section MoreCommands.
Context (W : World).

Lemma RunCommand_unfold (cmd : string) (c : SSHClient) :
  RunCommand W cmd c =
    match NewSession_err c with
    | Some e =>
        if handleError_returns W (Some e)
        then Panic "invalid memory address or nil pointer dereference"
        else Exit (Some e)
    | None =>
        if handleError_returns W None
        then Ret (written_to Stdout (remote_run c cmd false).1, (remote_run c cmd false).2)
        else Exit None
    end.
Proof.
  unfold RunCommand, NewSession, handleError, Session_Output.
  destruct (NewSession_err c) as [e|]; simpl.
  - by destruct (handleError_returns W (Some e)).
  - destruct (handleError_returns W None); simpl; [|done].
    by destruct (remote_run c cmd false).
Qed.

(** X11.  When no session can be opened, [RunCommand] never returns to its
    caller, with or without an error: the process ends in [handleError]
    with the error of [NewSession], or, should [handleError] return, in a
    panic on the nil session. *)
Theorem RunCommand_without_session (cmd : string) (c : SSHClient) (e : error) :
  NewSession_err c = Some e ->
  (forall out, RunCommand W cmd c <> Ret out) /\
  (handleError_returns W (Some e) = false -> RunCommand W cmd c = Exit (Some e)) /\
  (handleError_returns W (Some e) = true -> exists why, RunCommand W cmd c = Panic why).
Proof.
  intros Hsession. rewrite RunCommand_unfold, Hsession.
  destruct (handleError_returns W (Some e)); split; try split; try done.
  intros _. eauto.
Qed.

(** X12.  [RunCommand] depends on the host only through whether a session
    opens, what the command writes to standard output on a session without
    a pseudo-terminal, and the error that run ends with: two hosts that
    agree on these give the same result, however they differ in what the
    command writes to standard error or does on a pseudo-terminal. *)
Theorem RunCommand_depends_on_stdout (cmd : string) (c1 c2 : SSHClient) :
  NewSession_err c1 = NewSession_err c2 ->
  written_to Stdout (remote_run c1 cmd false).1
  = written_to Stdout (remote_run c2 cmd false).1 ->
  (remote_run c1 cmd false).2 = (remote_run c2 cmd false).2 ->
  RunCommand W cmd c1 = RunCommand W cmd c2.
Proof.
  intros Hsession Hout Herr.
  rewrite !RunCommand_unfold, Hsession, Hout, Herr. reflexivity.
Qed.

Lemma written_to_Stdout_only (chunks : list (stream * string)) :
  Forall (fun chunk => chunk.1 = Stdout) chunks ->
  written_to Stdout chunks = combined chunks.
Proof.
  induction 1 as [|[s text] rest Hs _ IH]; simpl in *; [done|].
  subst s. by rewrite IH.
Qed.

(** X13.  For a command that writes to standard output only, what
    [RunCommand] returns is all the command wrote, in the order written,
    together with the error the run ended with (so also when the command
    fails part-way). *)
Theorem RunCommand_stdout_only (cmd : string) (c : SSHClient) :
  NewSession_err c = None ->
  handleError_returns W None = true ->
  Forall (fun chunk => chunk.1 = Stdout) (remote_run c cmd false).1 ->
  RunCommand W cmd c
  = Ret (combined (remote_run c cmd false).1, (remote_run c cmd false).2).
Proof.
  intros Hsession Hnil Hstdout.
  rewrite RunCommand_unfold, Hsession, Hnil.
  by rewrite (written_to_Stdout_only _ Hstdout).
Qed.

End MoreCommands.

Section Connections.
Context (W : World) (C : Crypto) (O : Outside).

(** X14.  [ConnectSSH] reads the key file, loads the known hosts and dials,
    in this order, each at most once and none after a step before it
    failed: the calls it makes are a prefix of these three.  It dials
    only [host:port] over tcp, as [username], with the signer made from
    the key file and the host-key callback loaded from the known-hosts
    file, and only when the key file was read, [handleError] returned for
    the result of [signerFromPem], and the known hosts were loaded.  It
    returns the connection that dial answered without error; a key file
    that cannot be read or known hosts that cannot be loaded end the
    process with the error, before anything is dialled. *)
Theorem ConnectSSH_calls
  (username privateKeyPath privateKeyPassword host port knownHostPath : string) :
  let config := dialConfig C O username privateKeyPath privateKeyPassword knownHostPath in
  let addr := host +:+ ":" +:+ port in
  let out :=
    ConnectSSH W C O username privateKeyPath privateKeyPassword host port knownHostPath [] in
  out.2 `prefix_of`
    [Call_ReadFile privateKeyPath; Call_knownhosts_New knownHostPath;
     Call_Dial "tcp" addr config] /\
  (forall network a cfg,
      Call_Dial network a cfg ∈ out.2 ->
      (ioutil_ReadFile O privateKeyPath).2 = None /\
      handleError_returns W
        (signerFromPem C (ioutil_ReadFile O privateKeyPath).1
           (String.list_byte_of_string privateKeyPassword)).2 = true /\
      (knownhosts_New O knownHostPath).2 = None) /\
  (forall conn,
      out.1 = Ret conn ->
      ssh_Dial O "tcp" addr config = (conn, None) /\
      out.2 = [Call_ReadFile privateKeyPath; Call_knownhosts_New knownHostPath;
               Call_Dial "tcp" addr config]) /\
  (forall e,
      (ioutil_ReadFile O privateKeyPath).2 = Some e ->
      out = (Exit (Some e), [Call_ReadFile privateKeyPath])) /\
  (forall e,
      (ioutil_ReadFile O privateKeyPath).2 = None ->
      handleError_returns W
        (signerFromPem C (ioutil_ReadFile O privateKeyPath).1
           (String.list_byte_of_string privateKeyPassword)).2 = true ->
      (knownhosts_New O knownHostPath).2 = Some e ->
      out = (Exit (Some e),
             [Call_ReadFile privateKeyPath; Call_knownhosts_New knownHostPath])).
Proof.
  intros config addr out. subst out config addr.
  unfold ConnectSSH, dialConfig, mbind, T_bind, calling, log_Fatal, ending, handleError.
  simpl.
  destruct (ioutil_ReadFile O privateKeyPath) as [pemBytes [rerr|]]; simpl.
  { split; [by eexists|]. split.
    - intros network a cfg [Hin|Hin%elem_of_nil]%elem_of_cons; done.
    - split; [done|]. split; [by intros e [= <-]|done]. }
  destruct (signerFromPem C pemBytes _) as [signer serr]; simpl.
  destruct (handleError_returns W serr); simpl.
  2:{ split; [by eexists|]. split.
      - intros network a cfg [Hin|Hin%elem_of_nil]%elem_of_cons; done.
      - split; [done|]. split; done. }
  destruct (knownhosts_New O knownHostPath) as [cb [kerr|]]; simpl.
  { split; [by eexists|]. split.
    - intros network a cfg [Hin|[Hin|Hin%elem_of_nil]%elem_of_cons]%elem_of_cons; done.
    - split; [done|]. split; [done|]. by intros e _ _ [= <-]. }
  destruct (ssh_Dial O "tcp" _ _) as [conn [derr|]]; simpl.
  - split; [done|]. split; [done|]. split; done.
  - split; [done|]. split; [done|]. split; [|done].
    by intros conn' [= <-].
Qed.

End Connections.

(** ** Sizes *)

Section Sizes.
Context (W : World).

Lemma append_B_inj (s1 s2 : string) : s1 +:+ "B" = s2 +:+ "B" -> s1 = s2.
Proof.
  revert s2. induction s1 as [|a1 s1 IH]; intros [|a2 s2]; simpl; intros Heq.
  - reflexivity.
  - injection Heq as _ Heq. by destruct s2.
  - injection Heq as _ Heq. by destruct s1.
  - injection Heq as -> Heq. f_equal. by apply IH.
Qed.

(** X15.  Below a thousand bytes (zero and negative counts included)
    [ConvertBytesToSizeString] writes the count itself, in decimal,
    followed by [B], with no rounding: two such counts that are written
    the same are the same count. *)
Theorem ConvertBytesToSizeString_small (size1 size2 : Z) :
  (size1 < 1000)%Z ->
  (size2 < 1000)%Z ->
  ConvertBytesToSizeString W size1 = pretty size1 +:+ "B" /\
  (ConvertBytesToSizeString W size1 = ConvertBytesToSizeString W size2 -> size1 = size2).
Proof.
  intros H1 H2. unfold ConvertBytesToSizeString. cbv zeta.
  rewrite (proj2 (Z.ltb_lt size1 1000) H1), (proj2 (Z.ltb_lt size2 1000) H2).
  split; [reflexivity|].
  intros Heq%append_B_inj. by apply (inj pretty).
Qed.

End Sizes.

(** ** The further properties at work on the examples *)

(** The listing of [/home/user]: the parent entry, [docs], [notes.txt]. *)
Lemma createItemListModel_keeps_records_witness :
  createItemListModel (plainWorld strict goodClient) "/home/user" goodClient
  = Ret (items (model.list (atUser goodClient 0))) /\
  map rawValue (items (model.list (atUser goodClient 0)))
  = [None; Some docs; Some notes].
Proof.
  split; [reflexivity|].
  exact (proj1 (proj2 (createItemListModel_keeps_records (plainWorld strict goodClient)
                         "/home/user" goodClient (items (model.list (atUser goodClient 0)))
                         eq_refl))).
Defined.

(** A resized window in [/home/user], on a host that refuses to list
    [docs] and on one that cannot open [notes.txt], with a [handleError]
    that returns and with one that does not. *)
Lemma Update_without_navigation_witness :
  exists m' cmd,
    Update (plainWorld strict deniedClient) (atUser deniedClient 1)
      (WindowSizeMsg 100 40) ∅ = (Ret (m', cmd), ∅) /\
    nav m' = nav (atUser deniedClient 1) /\
    width (model.list m') = 96%Z /\
    exists m2',
      Update (plainWorld lenient unreadableClient) (atUser unreadableClient 1)
        (WindowSizeMsg 100 40) ∅ = (Ret (m2', cmd), ∅) /\
      model.list m2' = model.list m'.
Proof.
  destruct (Update_without_navigation (plainWorld strict deniedClient)
              (atUser deniedClient 1) (WindowSizeMsg 100 40) ∅ eq_refl)
    as (m' & cmd & HU & _ & _ & _ & Hnav & Hlocal).
  exists m', cmd. split; [exact HU|]. split; [apply Hnav; reflexivity|].
  split; [by injection HU as <- _|].
  destruct (Hlocal (plainWorld lenient unreadableClient) (atUser unreadableClient 1)
              eq_refl eq_refl eq_refl eq_refl eq_refl) as (m2' & HU2 & Hl2 & _).
  exists m2'. split; [exact HU2|exact Hl2].
Defined.

(** The download of [notes.txt] changes [notes.txt], and is an "enter". *)
Lemma Update_local_files_witness :
  (Update (plainWorld strict goodClient) (atUser goodClient 2) (KeyMsg "enter") ∅).2
    !! "notes.txt" = Some notes_content /\
  exists selected fi,
    SelectedItem (model.list (atUser goodClient 2)) = Some selected /\
    rawValue selected = Some fi /\
    FileInfo.IsDir fi = false /\
    "notes.txt" = filepath_Join (plainWorld strict goodClient) "." (FileInfo.Name fi).
Proof.
  split; [reflexivity|].
  refine (proj2 (Update_local_files (plainWorld strict goodClient) (atUser goodClient 2)
                   (KeyMsg "enter") ∅ "notes.txt" _)).
  discriminate.
Defined.

(** Into [docs], a progress frame, back with "backspace", and a key that
    goes to the list. *)
Lemma run_shows_current_listing_witness :
  exists m' fs',
    run (plainWorld strict goodClient)
      [KeyMsg "enter"; FrameMsg; KeyMsg "backspace"; KeyMsg "j"]
      (atUser goodClient 1) ∅ = (Ret m', fs') /\
    shows_current_listing (plainWorld strict goodClient) m' /\
    items (model.list m') !! 0 = Some (parentItem (plainWorld strict goodClient)).
Proof.
  destruct (run (plainWorld strict goodClient)
              [KeyMsg "enter"; FrameMsg; KeyMsg "backspace"; KeyMsg "j"]
              (atUser goodClient 1) ∅) as [[m'| |] fs'] eqn:Hrun;
    [|vm_compute in Hrun; discriminate Hrun|vm_compute in Hrun; discriminate Hrun].
  exists m', fs'. split; [reflexivity|].
  destruct (run_shows_current_listing (plainWorld strict goodClient)
              [KeyMsg "enter"; FrameMsg; KeyMsg "backspace"; KeyMsg "j"]
              (atUser goodClient 1) m' ∅ fs'
              (fun l msg => eq_refl) eq_refl Hrun) as (Hshows & Hfirst & _).
  split; [exact Hshows|exact Hfirst].
Defined.

(** Into [docs] and back. *)
Lemma enter_then_backspace_witness :
  exists m',
    run (plainWorld strict goodClient) [KeyMsg "enter"; KeyMsg "backspace"]
      (atUser goodClient 1) ∅ = (Ret m', ∅) /\
    nav m' = nav (atUser goodClient 1).
Proof.
  destruct (enter_then_backspace (plainWorld strict goodClient) (atUser goodClient 1) ∅
              (decorate (plainWorld strict goodClient) docs) docs
              eq_refl eq_refl eq_refl eq_refl eq_refl eq_refl eq_refl eq_refl)
    as (m' & Hrun & _ & _ & Hnav).
  exists m'. split; [exact Hrun|]. apply Hnav. reflexivity.
Defined.

(** "enter" with the selection on a seventh entry of three. *)
Lemma Update_enter_out_of_range_witness :
  exists why,
    Update (plainWorld strict goodClient) (atUser goodClient 7) (KeyMsg "enter") ∅
    = (Panic why, ∅).
Proof.
  apply (Update_enter_out_of_range (plainWorld strict goodClient) (atUser goodClient 7) ∅).
  simpl. lia.
Defined.

(** A download that breaks off after two bytes, over an older local file. *)
Lemma downloadFile_leaves_prefix_witness :
  exists data,
    (downloadFile (plainWorld strict flakyClient) (atUser flakyClient 2)
       "/home/user" "notes.txt" {[ "notes.txt" := [Byte.x00; Byte.x01; Byte.x02] ]}).2
    = {[ "notes.txt" := data ]} /\
    data `prefix_of` notes_content.
Proof.
  destruct (downloadFile_leaves_prefix (plainWorld strict flakyClient)
              (atUser flakyClient 2) "/home/user" "notes.txt"
              {[ "notes.txt" := [Byte.x00; Byte.x01; Byte.x02] ]})
    as [Hsame|(data & Hfs & Hprefix)]; [discriminate Hsame|].
  exists data. split; [|exact Hprefix].
  rewrite Hfs. apply insert_singleton_eq.
Defined.

(** The encrypted key file, opened with its passphrase. *)
Lemma signerFromPem_encrypted_key_witness :
  signerFromPem toyCrypto encryptedKeyFile [Byte.x73]
  = (Some {| signer_key := [Byte.x01; Byte.x02] |}, None).
Proof.
  refine (signerFromPem_encrypted_key toyCrypto encryptedKeyFile [Byte.x73]
            {| Block_Type := "RSA PRIVATE KEY";
               Block_Headers := {[ "DEK-Info" := "AES-128-CBC,00" ]};
               Block_Bytes := [Byte.x01; Byte.x02] |}
            [Byte.x01; Byte.x02] (RSAPrivateKey (Some [Byte.x01; Byte.x02]))
            (Some {| signer_key := [Byte.x01; Byte.x02] |})
            eq_refl eq_refl eq_refl _ eq_refl).
  left. split; [reflexivity|]. exists (Some [Byte.x01; Byte.x02]). split; reflexivity.
Defined.

(** An encrypted block with a tag of none of the three kinds, opened with
    its passphrase: the unsupported-type step, and no other. *)
Lemma signerFromPem_error_witness :
  signerFromPem otherTagCrypto [Byte.x01] [Byte.x73]
  = (None, Some "parsing private key failed, unsupported key type OPENSSH PRIVATE KEY") /\
  fails_at otherTagCrypto [Byte.x01] [Byte.x73]
    "parsing private key failed, unsupported key type OPENSSH PRIVATE KEY" /\
  ~ fails_at otherTagCrypto [Byte.x01] [Byte.x73]
      "decrypting PEM block failed x509: decryption password incorrect".
Proof.
  split; [reflexivity|]. split.
  - exact (proj2 (proj1 (signerFromPem_error otherTagCrypto [Byte.x01] [Byte.x73] None
                           "parsing private key failed, unsupported key type OPENSSH PRIVATE KEY")
                    eq_refl)).
  - intros Hfails.
    pose proof (proj2 (signerFromPem_error otherTagCrypto [Byte.x01] [Byte.x73] None
                         "decrypting PEM block failed x509: decryption password incorrect")
                  (conj eq_refl Hfails)) as Hret.
    discriminate Hret.
Defined.

(** A host that refuses sessions. *)
Lemma RunCommand_without_session_witness :
  RunCommand (plainWorld strict goodClient) "echo hi" closedHost
  = Exit (Some "ssh: rejected: administratively prohibited") /\
  exists why, RunCommand (plainWorld lenient goodClient) "echo hi" closedHost = Panic why.
Proof.
  split.
  - exact (proj1 (proj2 (RunCommand_without_session (plainWorld strict goodClient)
                           "echo hi" closedHost _ eq_refl)) eq_refl).
  - exact (proj2 (proj2 (RunCommand_without_session (plainWorld lenient goodClient)
                           "echo hi" closedHost _ eq_refl)) eq_refl).
Defined.

(** Two hosts that differ on a pseudo-terminal only. *)
Lemma RunCommand_depends_on_stdout_witness :
  remote_run ttyHost "make" true <> remote_run buildHost "make" true /\
  RunCommand (plainWorld strict goodClient) "make" ttyHost
  = RunCommand (plainWorld strict goodClient) "make" buildHost.
Proof.
  split; [discriminate|].
  exact (RunCommand_depends_on_stdout (plainWorld strict goodClient) "make" ttyHost buildHost
           eq_refl eq_refl eq_refl).
Defined.

(** A command that writes two lines, and one that writes a line and then
    fails. *)
Lemma RunCommand_stdout_only_witness :
  RunCommand (plainWorld strict goodClient) "seq 2" shellHost
  = Ret ("1" +:+ newline +:+ "2" +:+ newline, None) /\
  RunCommand (plainWorld strict goodClient) "grep -c x notes.txt" shellHost
  = Ret ("0" +:+ newline, Some "Process exited with status 1").
Proof.
  split.
  - refine (RunCommand_stdout_only (plainWorld strict goodClient) "seq 2" shellHost
              eq_refl eq_refl _).
    repeat constructor.
  - refine (RunCommand_stdout_only (plainWorld strict goodClient) "grep -c x notes.txt"
              shellHost eq_refl eq_refl _).
    repeat constructor.
Defined.

(** A connection to [example.org:22] with the plain key, and an attempt
    with a known-hosts file that does not exist. *)
Lemma ConnectSSH_calls_witness :
  ConnectSSH (plainWorld strict goodClient) toyCrypto officeOutside
    "alice" "id_rsa" "" "example.org" "22" "known_hosts" []
  = (Ret (Some buildHost),
     [Call_ReadFile "id_rsa"; Call_knownhosts_New "known_hosts";
      Call_Dial "tcp" "example.org:22"
        {| User := "alice";
           Auth := [PublicKeys [Some {| signer_key := [Byte.x01; Byte.x02] |}]];
           Config_HostKeyCallback :=
             Some {| accepted := [("example.org", "ssh-ed25519 AAAA")] |} |}]) /\
  ConnectSSH (plainWorld strict goodClient) toyCrypto officeOutside
    "alice" "id_rsa" "" "example.org" "22" "no_such_file" []
  = (Exit (Some "open: no such file or directory"),
     [Call_ReadFile "id_rsa"; Call_knownhosts_New "no_such_file"]).
Proof.
  split; [reflexivity|].
  pose proof (ConnectSSH_calls (plainWorld strict goodClient) toyCrypto officeOutside
                "alice" "id_rsa" "" "example.org" "22" "no_such_file")
    as (_ & _ & _ & _ & Hknown).
  exact (Hknown "open: no such file or directory" eq_refl eq_refl eq_refl).
Defined.

(** Sizes of 0, 999 and -1 bytes. *)
Lemma ConvertBytesToSizeString_small_witness :
  ConvertBytesToSizeString (plainWorld strict goodClient) 0 = "0B" /\
  ConvertBytesToSizeString (plainWorld strict goodClient) 999 = "999B" /\
  ConvertBytesToSizeString (plainWorld strict goodClient) (-1) = "-1B".
Proof.
  split; [|split].
  - exact (proj1 (ConvertBytesToSizeString_small (plainWorld strict goodClient) 0 0
                    eq_refl eq_refl)).
  - exact (proj1 (ConvertBytesToSizeString_small (plainWorld strict goodClient) 999 0
                    eq_refl eq_refl)).
  - exact (proj1 (ConvertBytesToSizeString_small (plainWorld strict goodClient) (-1) 0
                    eq_refl eq_refl)).
Defined.
